(** * Remittance saga engine: a shallow embedding of [remit-python]

    The development follows the Python sources:
    - [app/db/models.py]: the status and event enumerations and the three
      persisted records;
    - [app/db/dynamodb.py], [app/db/repositories.py]: the repositories over
      the three tables;
    - [app/services/remittance_service.py]: the orchestration service;
    - [app/api/v1/routes/remittances.py]: the routes over the service.

    Effects are explicit: every operation is a function from a [World] (the
    three tables, the trace of gateway calls, and the number of clock and
    uuid draws made so far) to an outcome and a new [World].  The requests
    sent to the tables are modelled as the code sends them: a status update
    goes out without the names of its placeholders and is refused. *)

From Stdlib Require Import ZArith NArith Ascii String List Bool Lia.
From stdpp Require Import gmap strings list sorting pretty.

Local Open Scope string_scope.
Local Open Scope Z_scope.
Local Open Scope list_scope.

(** ** Python's [decimal.Decimal]

    A finite decimal is a sign, a coefficient and an exponent.  Arithmetic
    is done in the default context: 28 significant digits, rounding half to
    even.  The exponent limits of the context (ten to the power of plus or
    minus 999999) are outside the model. *)

Record PyDecimal := mkDec { dsign : bool; dcoeff : N; dexp : Z }.

Definition prec : nat := 28.

Definition ndigits (c : N) : nat := Decimal.nb_digits (N.to_uint c).

Definition pow10 (k : nat) : N := (10 ^ N.of_nat k)%N.

(** [Decimal._fix]: round the coefficient to [prec] digits. *)
Definition dec_fix (d : PyDecimal) : PyDecimal :=
  let n := ndigits (dcoeff d) in
  if (n <=? prec)%nat then d
  else
    let shift := (n - prec)%nat in
    let q := (dcoeff d / pow10 shift)%N in
    let r := (dcoeff d mod pow10 shift)%N in
    let half := (5 * pow10 (shift - 1))%N in
    let up := orb (half <? r)%N (andb (r =? half)%N (N.odd q)) in
    let q' := if up then (q + 1)%N else q in
    if (q' =? pow10 prec)%N
    then mkDec (dsign d) (q' / 10)%N (dexp d + Z.of_nat shift + 1)
    else mkDec (dsign d) q' (dexp d + Z.of_nat shift).

(** [Decimal.__mul__] *)
Definition dec_mul (a b : PyDecimal) : PyDecimal :=
  dec_fix (mkDec (xorb (dsign a) (dsign b))
                 (dcoeff a * dcoeff b)%N
                 (dexp a + dexp b)).

Definition signed_at (e : Z) (d : PyDecimal) : Z :=
  let m := Z.of_N (dcoeff d) * 10 ^ (dexp d - e) in
  if dsign d then - m else m.

(** [Decimal.__add__] *)
Definition dec_add (a b : PyDecimal) : PyDecimal :=
  let e := Z.min (dexp a) (dexp b) in
  let z := signed_at e a + signed_at e b in
  let s := if z =? 0 then andb (dsign a) (dsign b) else z <? 0 in
  dec_fix (mkDec s (Z.abs_N z) e).

(** [Decimal("100")] *)
Definition dec_100 : PyDecimal := mkDec false 100 0.

Global Instance PyDecimal_eq_dec : EqDecision PyDecimal.
Proof. solve_decision. Defined.

(** ** Enumerations of [app/db/models.py] *)

Inductive TransactionStatus :=
| INITIATED
| PAYMENT_PENDING
| PAYMENT_RECEIVED
| CONVERSION_IN_PROGRESS
| CONVERSION_COMPLETE
| FUNDS_SENT
| COMPLETED
| FAILED
| REFUNDED.

Global Instance TransactionStatus_eq_dec : EqDecision TransactionStatus.
Proof. solve_decision. Defined.

Definition status_value (s : TransactionStatus) : string :=
  match s with
  | INITIATED => "INITIATED"
  | PAYMENT_PENDING => "PAYMENT_PENDING"
  | PAYMENT_RECEIVED => "PAYMENT_RECEIVED"
  | CONVERSION_IN_PROGRESS => "CONVERSION_IN_PROGRESS"
  | CONVERSION_COMPLETE => "CONVERSION_COMPLETE"
  | FUNDS_SENT => "FUNDS_SENT"
  | COMPLETED => "COMPLETED"
  | FAILED => "FAILED"
  | REFUNDED => "REFUNDED"
  end.

Inductive EventType :=
| TRANSACTION_CREATED
| PAYMENT_INITIATED
| EV_PAYMENT_RECEIVED
| CONVERSION_INITIATED
| CONVERSION_COMPLETED
| TRANSFER_INITIATED
| TRANSFER_COMPLETED
| TRANSACTION_COMPLETED
| TRANSACTION_FAILED
| REFUND_INITIATED
| REFUND_COMPLETED.

Global Instance EventType_eq_dec : EqDecision EventType.
Proof. solve_decision. Defined.

Definition event_type_value (t : EventType) : string :=
  match t with
  | TRANSACTION_CREATED => "TRANSACTION_CREATED"
  | PAYMENT_INITIATED => "PAYMENT_INITIATED"
  | EV_PAYMENT_RECEIVED => "PAYMENT_RECEIVED"
  | CONVERSION_INITIATED => "CONVERSION_INITIATED"
  | CONVERSION_COMPLETED => "CONVERSION_COMPLETED"
  | TRANSFER_INITIATED => "TRANSFER_INITIATED"
  | TRANSFER_COMPLETED => "TRANSFER_COMPLETED"
  | TRANSACTION_COMPLETED => "TRANSACTION_COMPLETED"
  | TRANSACTION_FAILED => "TRANSACTION_FAILED"
  | REFUND_INITIATED => "REFUND_INITIATED"
  | REFUND_COMPLETED => "REFUND_COMPLETED"
  end.

(** ** Python values and dictionaries

    The values found in callback bodies, recipient payloads and event data.
    A [dict] keeps insertion order; assigning to a key that is present
    replaces its value in place. *)

Inductive Value :=
| VNone
| VStr (s : string)
| VDecimal (d : PyDecimal)
| VDatetime (t : Z).

Global Instance Value_eq_dec : EqDecision Value.
Proof. solve_decision. Defined.

Definition dict := list (string * Value).

Fixpoint dict_lookup (k : string) (d : dict) : option Value :=
  match d with
  | [] => None
  | (k', v) :: d' => if String.eqb k k' then Some v else dict_lookup k d'
  end.

(** [d.get(k)] and [d.get(k, default)] *)
Definition dict_get (d : dict) (k : string) : Value :=
  match dict_lookup k d with Some v => v | None => VNone end.

Definition dict_get_default (d : dict) (k : string) (default : Value) : Value :=
  match dict_lookup k d with Some v => v | None => default end.

(** [{**d, k: v}] *)
Fixpoint dict_set (d : dict) (k : string) (v : Value) : dict :=
  match d with
  | [] => [(k, v)]
  | (k', v') :: d' =>
      if String.eqb k k' then (k, v) :: d' else (k', v') :: dict_set d' k v
  end.

(** ** Persisted records of [app/db/models.py]

    A datetime is a number of microseconds; [Optional] fields are options. *)

Record Transaction := mkTransaction {
  transaction_id : string;
  user_id : string;
  status : TransactionStatus;
  amount_inr : PyDecimal;
  amount_cad : option PyDecimal;
  exchange_rate : option PyDecimal;
  fees : option PyDecimal;
  recipient_details : dict;
  payment_details : dict;
  wise_transfer_id : option string;
  ad_bank_reference : option string;
  failure_reason : option string;
  created_at : Z;
  updated_at : Z
}.

Record TransactionEvent := mkTransactionEvent {
  ev_transaction_id : string;
  event_id : string;
  event_timestamp : Z;
  event_type : EventType;
  event_data : dict;
  actor : string
}.

Record ExchangeRate := mkExchangeRate {
  currency_pair : string;
  rate_timestamp : Z;
  rate : PyDecimal;
  source : string
}.

(** ** Request and response models of [app/models/remittance.py] *)

Record CanadianRecipient := mkCanadianRecipient {
  full_name : string;
  bank_name : string;
  account_number : string;
  transit_number : string;
  institution_number : string;
  address : option string;
  phone : option string;
  email : option string
}.

Definition opt_str (o : option string) : Value :=
  match o with Some s => VStr s | None => VNone end.

(** [recipient.dict()] *)
Definition recipient_dict (r : CanadianRecipient) : dict :=
  [ ("full_name", VStr (full_name r));
    ("bank_name", VStr (bank_name r));
    ("account_number", VStr (account_number r));
    ("transit_number", VStr (transit_number r));
    ("institution_number", VStr (institution_number r));
    ("address", opt_str (address r));
    ("phone", opt_str (phone r));
    ("email", opt_str (email r)) ].

Record RemittanceRequest := mkRemittanceRequest {
  req_amount_inr : PyDecimal;
  sender_id : string;
  recipient : CanadianRecipient
}.

Record RemittanceConfirmation := mkRemittanceConfirmation {
  upi_id : string
}.

Record RemittanceResponse := mkRemittanceResponse {
  resp_transaction_id : string;
  resp_status : string;
  resp_amount_inr : PyDecimal;
  resp_amount_cad : option PyDecimal;
  resp_exchange_rate : option PyDecimal;
  resp_fees : option PyDecimal;
  resp_recipient : dict;
  resp_created_at : Z
}.

Record RemittanceCalculation := mkRemittanceCalculation {
  calc_amount_inr : PyDecimal;
  calc_exchange_rate : PyDecimal;
  calc_amount_cad : PyDecimal;
  calc_fee_percent : PyDecimal;
  calc_fee_amount : PyDecimal;
  calc_total_amount_inr : PyDecimal
}.

(** The dictionary returned by [get_transaction_status]: each entry of
    ["history"] is itself a dictionary with the keys ["event_type"],
    ["timestamp"] and ["data"]. *)
Record HistoryEntry := mkHistoryEntry {
  h_event_type : string;
  h_timestamp : string;
  h_data : dict
}.

Inductive StatusField :=
| FStr (s : string)
| FDatetime (t : Z)
| FHistory (h : list HistoryEntry).

Definition StatusDict := list (string * StatusField).

Fixpoint status_dict_lookup (k : string) (d : StatusDict) : option StatusField :=
  match d with
  | [] => None
  | (k', v) :: d' => if String.eqb k k' then Some v else status_dict_lookup k d'
  end.

(** ** Exceptions, gateway calls and the world *)

Inductive Exception :=
| ValueError (msg : string)
| TypeError (msg : string)
| AttributeError (msg : string)
| ClientError (msg : string)
| GatewayError (msg : string).

(** [str(e)] *)
Definition exc_str (e : Exception) : string :=
  match e with
  | ValueError m | TypeError m | AttributeError m | ClientError m
  | GatewayError m => m
  end.

Inductive Result (A : Type) :=
| Ok (a : A)
| Raise (e : Exception).
Arguments Ok {A} a.
Arguments Raise {A} e.

(** One entry per call made to a provider gateway, with its arguments. *)
Inductive ProviderCall :=
| GetExchangeRate (pair : string)
| ConvertCurrency (tid src tgt : string) (amount : PyDecimal)
    (xrate : option PyDecimal)
| CreateTransfer (tid src tgt : string) (amount : option PyDecimal)
    (rcpt : dict)
| GeneratePaymentLink (tid : string) (amount : PyDecimal) (upi : string).

Definition is_convert_currency (c : ProviderCall) : bool :=
  match c with ConvertCurrency _ _ _ _ _ => true | _ => false end.

Definition is_get_exchange_rate (c : ProviderCall) : bool :=
  match c with GetExchangeRate _ => true | _ => false end.

(** The [Transactions] table has [transaction_id] as its key, so it is a
    finite map; [put_item] on it is an insertion.  Events and rate
    observations are written under fresh keys only (a new uuid, a new
    timestamp), so these two tables are logs, in the order of the writes. *)
Record World := mkWorld {
  Transactions : gmap string Transaction;
  TransactionEvents : list TransactionEvent;
  ExchangeRates : list ExchangeRate;
  provider_calls : list ProviderCall;
  uuid_draws : nat;
  clock_reads : nat
}.

(** Computations that read and write the world and may raise. *)
Definition M (A : Type) : Type := World -> Result A * World.

Definition ret {A} (a : A) : M A := fun w => (Ok a, w).

Definition raise {A} (e : Exception) : M A := fun w => (Raise e, w).

Definition bind {A B} (m : M A) (k : A -> M B) : M B :=
  fun w =>
    match m w with
    | (Ok a, w') => k a w'
    | (Raise e, w') => (Raise e, w')
    end.

(** [try: body  except Exception as e: handler e] *)
Definition try_except {A} (body : M A) (handler : Exception -> M A) : M A :=
  fun w =>
    match body w with
    | (Ok a, w') => (Ok a, w')
    | (Raise e, w') => handler e w'
    end.

Declare Scope py_scope.
Delimit Scope py_scope with py.
Notation "'let*' x := m 'in' k" := (bind m (fun x => k))
  (at level 10, x name, m at level 100, k at level 200) : py_scope.
Notation "'exec' m 'in' k" := (bind m (fun _ => k))
  (at level 10, m at level 100, k at level 200) : py_scope.
Local Open Scope py_scope.

(** ** What the program takes from outside

    The n-th draw of [uuid.uuid4()] and the n-th reading of
    [datetime.utcnow()]; the renderings [str] and [isoformat]; the fee fraction
    [Decimal(str(settings.DEFAULT_SERVICE_FEE_PERCENT / 100))], a float
    computation whose result the service uses as a [Decimal]; and the three
    provider gateways, each method answering, for the position of the call
    in the trace and its arguments, with a value or an exception. *)
Record Env := mkEnv {
  uuid4 : nat -> string;
  utcnow : nat -> Z;
  isoformat : Z -> string;
  str_datetime : Z -> string;
  str_decimal : PyDecimal -> string;
  fee_percent : PyDecimal;
  adbank_get_exchange_rate : nat -> string -> Result PyDecimal;
  adbank_convert_currency :
    nat -> string -> string -> string -> PyDecimal -> option PyDecimal ->
    Result string;
  wise_create_transfer :
    nat -> string -> string -> string -> option PyDecimal -> dict ->
    Result string;
  upi_generate_payment_link :
    nat -> string -> PyDecimal -> string -> Result string
}.

(** Field writes on the world. *)
Definition set_Transactions (m : gmap string Transaction) (w : World) : World :=
  mkWorld m (TransactionEvents w) (ExchangeRates w) (provider_calls w)
          (uuid_draws w) (clock_reads w).

Definition set_TransactionEvents (l : list TransactionEvent) (w : World) : World :=
  mkWorld (Transactions w) l (ExchangeRates w) (provider_calls w)
          (uuid_draws w) (clock_reads w).

Definition set_ExchangeRates (l : list ExchangeRate) (w : World) : World :=
  mkWorld (Transactions w) (TransactionEvents w) l (provider_calls w)
          (uuid_draws w) (clock_reads w).

Definition set_provider_calls (l : list ProviderCall) (w : World) : World :=
  mkWorld (Transactions w) (TransactionEvents w) (ExchangeRates w) l
          (uuid_draws w) (clock_reads w).

Definition set_uuid_draws (n : nat) (w : World) : World :=
  mkWorld (Transactions w) (TransactionEvents w) (ExchangeRates w)
          (provider_calls w) n (clock_reads w).

Definition set_clock_reads (n : nat) (w : World) : World :=
  mkWorld (Transactions w) (TransactionEvents w) (ExchangeRates w)
          (provider_calls w) (uuid_draws w) n.

(** The partial update of [update_status]: the keys of
    [additional_updates] that the service uses. *)
Inductive FieldUpdate :=
| upd_payment_details (d : dict)
| upd_failure_reason (s : string)
| upd_ad_bank_reference (s : string)
| upd_wise_transfer_id (s : string).

Definition set_status (st : TransactionStatus) (now : Z) (t : Transaction)
  : Transaction :=
  mkTransaction (transaction_id t) (user_id t) st (amount_inr t)
    (amount_cad t) (exchange_rate t) (fees t) (recipient_details t)
    (payment_details t) (wise_transfer_id t) (ad_bank_reference t)
    (failure_reason t) (created_at t) now.

Definition apply_update (u : FieldUpdate) (t : Transaction) : Transaction :=
  match u with
  | upd_payment_details d =>
      mkTransaction (transaction_id t) (user_id t) (status t) (amount_inr t)
        (amount_cad t) (exchange_rate t) (fees t) (recipient_details t)
        d (wise_transfer_id t) (ad_bank_reference t)
        (failure_reason t) (created_at t) (updated_at t)
  | upd_failure_reason s =>
      mkTransaction (transaction_id t) (user_id t) (status t) (amount_inr t)
        (amount_cad t) (exchange_rate t) (fees t) (recipient_details t)
        (payment_details t) (wise_transfer_id t) (ad_bank_reference t)
        (Some s) (created_at t) (updated_at t)
  | upd_ad_bank_reference s =>
      mkTransaction (transaction_id t) (user_id t) (status t) (amount_inr t)
        (amount_cad t) (exchange_rate t) (fees t) (recipient_details t)
        (payment_details t) (wise_transfer_id t) (Some s)
        (failure_reason t) (created_at t) (updated_at t)
  | upd_wise_transfer_id s =>
      mkTransaction (transaction_id t) (user_id t) (status t) (amount_inr t)
        (amount_cad t) (exchange_rate t) (fees t) (recipient_details t)
        (payment_details t) (Some s) (ad_bank_reference t)
        (failure_reason t) (created_at t) (updated_at t)
  end.

Definition apply_updates (us : list FieldUpdate) (t : Transaction) : Transaction :=
  fold_left (fun acc u => apply_update u acc) us t.

(** Stable sorting: an element goes before the first one that is not
    below it, so elements that compare equal keep their order. *)
Fixpoint insert_by {A} (le : A -> A -> bool) (x : A) (l : list A) : list A :=
  match l with
  | [] => [x]
  | y :: l' => if le x y then x :: y :: l' else y :: insert_by le x l'
  end.

Definition sort_by {A} (le : A -> A -> bool) (l : list A) : list A :=
  foldr (insert_by le) [] l.

(** Python's [sorted(xs, key=...)] for a key that is a datetime. *)
Definition sorted_by {A} (key : A -> Z) (l : list A) : list A :=
  sort_by (fun x y => key x <=? key y) l.

(** [Table.query] on one partition of the events table: the items come
    back in ascending order of the range key, the string [event_id]. *)
Definition by_range_key (l : list TransactionEvent) : list TransactionEvent :=
  sort_by (fun x y => String.leb (event_id x) (event_id y)) l.

(** [str(x)] of an optional decimal *)
Definition str_opt_decimal (E : Env) (o : option PyDecimal) : string :=
  match o with Some d => str_decimal E d | None => "None" end.

(** The text an f-string puts for a value. *)
Definition format_value (E : Env) (v : Value) : string :=
  match v with
  | VNone => "None"
  | VStr s => s
  | VDecimal d => str_decimal E d
  | VDatetime t => str_datetime E t
  end.

Section Service.

Variable E : Env.

(** *** Clock, identifiers and tables *)

(** [datetime.utcnow()] *)
Definition now : M Z :=
  fun w => (Ok (utcnow E (clock_reads w)), set_clock_reads (S (clock_reads w)) w).

(** [str(uuid.uuid4())] *)
Definition new_uuid : M string :=
  fun w => (Ok (uuid4 E (uuid_draws w)), set_uuid_draws (S (uuid_draws w)) w).

(** A table key has to be a string; anything else is refused by the table
    ([ClientError]).  The callback handlers hand the value found under
    ["transaction_id"] to [get_by_id] before anything else is done, so the
    key is obtained as a string first. *)
Definition key_str (v : Value) : M string :=
  match v with
  | VStr s => ret s
  | _ => raise (ClientError "The provided key element does not match the schema")
  end.

(** [TransactionRepository.get_by_id] *)
Definition get_by_id (transaction_id : string) : M (option Transaction) :=
  fun w => (Ok (Transactions w !! transaction_id), w).

(** [DynamoDBRepository.create] on the transactions table *)
Definition create_transaction (item : Transaction) : M Transaction :=
  fun w => (Ok item,
            set_Transactions (<[transaction_id item := item]> (Transactions w)) w).

(** An attribute of an update expression is written by its name
    ([updated_at]) or by a placeholder ([#status], [#0]); this is whether
    the expression holds a placeholder. *)
Fixpoint uses_name_placeholder (s : string) : bool :=
  match s with
  | EmptyString => false
  | String c s' =>
      if Ascii.eqb c "#"%char then true else uses_name_placeholder s'
  end.

(** [str(e)] of the [ClientError] with which the table answers an update
    expression that uses a placeholder the request does not define. *)
Definition undefined_attribute_name : string :=
  "An error occurred (ValidationException) when calling the UpdateItem operation: Invalid UpdateExpression: An expression attribute name used in the document path is not defined; attribute name: #status".

(** [DynamoDBRepository.update] on the transactions table.  [update_item]
    is called with [Key], [UpdateExpression], [ExpressionAttributeValues]
    and [ReturnValues] only: no [ExpressionAttributeNames] reaches the
    table.  The table validates the expression before it looks at the
    item, so an expression that uses a placeholder is refused with a
    [ClientError], whatever the key, and nothing is written; [update] logs
    the error and raises it again.  An expression without placeholders is
    applied to the stored item, [assign] being what its assignments do to
    the record (on an absent key the table would create an item holding the
    assigned attributes only, which [from_dynamodb_item] cannot decode; such
    an item has no place in a table of [Transaction] records, so there the
    model raises and leaves the table as it is). *)
Definition update (transaction_id : string) (update_expression : string)
    (assign : Transaction -> Transaction) : M (option Transaction) :=
  fun w =>
    if uses_name_placeholder update_expression then
      (Raise (ClientError undefined_attribute_name), w)
    else
      match Transactions w !! transaction_id with
      | Some t =>
          (Ok (Some (assign t)),
           set_Transactions (<[transaction_id := assign t]> (Transactions w)) w)
      | None =>
          (Raise (TypeError "fromisoformat: argument must be str"), w)
      end.

(** The expression [update_status] builds: the status and the time, then
    [#i = :i] for the i-th key of [additional_updates]. *)
Definition status_update_expression (n : nat) : string :=
  fold_left (fun acc i => acc +:+ ", #" +:+ pretty i +:+ " = :" +:+ pretty i)
            (seq 0 n)
            "SET #status = :status, updated_at = :updated_at".

(** [TransactionRepository.update_status]: the clock is read for
    [:updated_at], the expression is built, and [update] is called.  The
    names that stand behind [#0], [#1], ... are kept in
    [self._expression_attribute_names] and are not handed to [update]; the
    name behind [#status] is kept nowhere. *)
Definition update_status (transaction_id : string) (st : TransactionStatus)
    (additional_updates : list FieldUpdate) : M (option Transaction) :=
  let* updated_at := now in
  update transaction_id
         (status_update_expression (length additional_updates))
         (fun t => apply_updates additional_updates (set_status st updated_at t)).

(** [TransactionEventRepository.add_event]: the constructor draws the
    event id, then reads the clock; [create] writes the item. *)
Definition add_event (transaction_id : string) (ty : EventType)
    (data : dict) (who : string) : M TransactionEvent :=
  let* eid := new_uuid in
  let* ts := now in
  let event := mkTransactionEvent transaction_id eid ts ty data who in
  fun w => (Ok event,
            set_TransactionEvents (TransactionEvents w ++ [event]) w).

(** [TransactionEventRepository.get_events_for_transaction] *)
Definition get_events_for_transaction (transaction_id : string)
  : M (list TransactionEvent) :=
  fun w =>
    (Ok (by_range_key
           (filter (fun e => ev_transaction_id e = transaction_id)
                   (TransactionEvents w))), w).

(** [ExchangeRateRepository.add_rate].  The table is keyed by the pair
    and the timestamp; the observation is written under the clock reading
    just taken, a new key (see [World]), so the write adds an item. *)
Definition add_rate (pair : string) (r : PyDecimal) (src : string)
  : M ExchangeRate :=
  let* ts := now in
  let item := mkExchangeRate pair ts r src in
  fun w => (Ok item, set_ExchangeRates (ExchangeRates w ++ [item]) w).

(** *** Gateway calls: the call is recorded, the environment answers. *)

Definition gateway {A} (c : ProviderCall) (answer : nat -> Result A) : M A :=
  fun w =>
    (answer (length (provider_calls w)),
     set_provider_calls (provider_calls w ++ [c]) w).

Definition get_exchange_rate (pair : string) : M PyDecimal :=
  gateway (GetExchangeRate pair) (fun n => adbank_get_exchange_rate E n pair).

Definition convert_currency (tid src tgt : string) (amount : PyDecimal)
    (xrate : option PyDecimal) : M string :=
  gateway (ConvertCurrency tid src tgt amount xrate)
          (fun n => adbank_convert_currency E n tid src tgt amount xrate).

Definition create_transfer (tid src tgt : string) (amount : option PyDecimal)
    (rcpt : dict) : M string :=
  gateway (CreateTransfer tid src tgt amount rcpt)
          (fun n => wise_create_transfer E n tid src tgt amount rcpt).

Definition generate_payment_link (tid : string) (amount : PyDecimal)
    (upi : string) : M string :=
  gateway (GeneratePaymentLink tid amount upi)
          (fun n => upi_generate_payment_link E n tid amount upi).

(** *** [RemittanceService] *)

Definition response_of (t : Transaction) : RemittanceResponse :=
  mkRemittanceResponse (transaction_id t) (status_value (status t))
    (amount_inr t) (amount_cad t) (exchange_rate t) (fees t)
    (recipient_details t) (created_at t).

(** [Transaction(user_id=..., amount_inr=..., amount_cad=..., ...)]: the
    constructor draws the id and reads the clock twice. *)
Definition new_transaction (user : string) (amount : PyDecimal)
    (cad xrate fee : PyDecimal) (rcpt : dict) : M Transaction :=
  let* tid := new_uuid in
  let* created := now in
  let* updated := now in
  ret (mkTransaction tid user INITIATED amount (Some cad) (Some xrate)
         (Some fee) rcpt [] None None None created updated).

Definition create_remittance (remittance_request : RemittanceRequest)
  : M RemittanceResponse :=
  let* exchange_rate' := get_exchange_rate "INR_CAD" in
  exec add_rate "INR_CAD" exchange_rate' "AD_BANK" in
  let amount_cad' := dec_mul (req_amount_inr remittance_request) exchange_rate' in
  let fees' := dec_mul (req_amount_inr remittance_request) (fee_percent E) in
  let* transaction :=
    new_transaction (sender_id remittance_request)
      (req_amount_inr remittance_request) amount_cad' exchange_rate' fees'
      (recipient_dict (recipient remittance_request)) in
  let* created_transaction := create_transaction transaction in
  exec add_event (transaction_id created_transaction) TRANSACTION_CREATED
      [ ("amount_inr", VStr (str_decimal E (amount_inr created_transaction)));
        ("amount_cad", VStr (str_opt_decimal E (amount_cad created_transaction)));
        ("exchange_rate",
          VStr (str_opt_decimal E (exchange_rate created_transaction)));
        ("fees", VStr (str_opt_decimal E (fees created_transaction))) ]
      (sender_id remittance_request) in
  ret (response_of created_transaction).

(** [transaction.amount_inr + transaction.fees] *)
Definition amount_plus_fees (t : Transaction) : M PyDecimal :=
  match fees t with
  | Some f => ret (dec_add (amount_inr t) f)
  | None => raise (TypeError "unsupported operand type(s) for +")
  end.

Definition confirm_remittance (tid : string)
    (confirmation : RemittanceConfirmation) : M RemittanceResponse :=
  let* transaction := get_by_id tid in
  match transaction with
  | None =>
      raise (ValueError ("Transaction " +:+ tid +:+ " not found"))
  | Some transaction =>
      if negb (bool_decide (status transaction = INITIATED)) then
        raise (ValueError ("Transaction " +:+ tid
                             +:+ " is not in INITIATED state"))
      else
        let* amount := amount_plus_fees transaction in
        let* upi_link :=
          generate_payment_link tid amount (upi_id confirmation) in
        let* updated_transaction :=
          update_status tid PAYMENT_PENDING
            [ upd_payment_details
                [ ("upi_id", VStr (upi_id confirmation));
                  ("upi_link", VStr upi_link) ] ] in
        let* amount' := amount_plus_fees transaction in
        exec add_event tid PAYMENT_INITIATED
            [ ("upi_id", VStr (upi_id confirmation));
              ("amount", VStr (str_decimal E amount')) ]
            "system" in
        match updated_transaction with
        | Some u => ret (response_of u)
        | None => raise (AttributeError "NoneType object has no attribute")
        end
  end.

(** The shared failure branch of the three callback handlers: the status
    reported by the provider is not ["SUCCESS"]. *)
Definition provider_reported_failure (tid : string) (prefix : string)
    (event_data : dict) : M bool :=
  exec update_status tid FAILED
      [ upd_failure_reason
          (prefix +:+ format_value E
             (dict_get_default event_data "error_message"
                (VStr "Unknown error"))) ] in
  exec add_event tid TRANSACTION_FAILED event_data "system" in
  ret false.

(** The shared [except Exception as e] branch of the two handlers that
    start the next provider step. *)
Definition provider_call_failed (tid : string) (prefix : string)
    (e : Exception) : M bool :=
  exec update_status tid FAILED
      [ upd_failure_reason (prefix +:+ exc_str e) ] in
  exec add_event tid TRANSACTION_FAILED [ ("error", VStr (exc_str e)) ]
      "system" in
  ret false.

Definition process_upi_payment_confirmation (event_data : dict) : M bool :=
  let* tid := key_str (dict_get event_data "transaction_id") in
  let status' := dict_get event_data "status" in
  let* transaction := get_by_id tid in
  match transaction with
  | None => ret false
  | Some transaction =>
      if negb (bool_decide (status' = VStr "SUCCESS")) then
        provider_reported_failure tid "UPI payment failed: " event_data
      else
        exec update_status tid PAYMENT_RECEIVED
            [ upd_payment_details
                (dict_set (payment_details transaction) "upi_reference"
                   (dict_get event_data "upi_reference")) ] in
        exec add_event tid EV_PAYMENT_RECEIVED event_data "system" in
        try_except
          (let* conversion_reference :=
             convert_currency tid "INR" "CAD" (amount_inr transaction)
               (exchange_rate transaction) in
           exec update_status tid CONVERSION_IN_PROGRESS
               [ upd_ad_bank_reference conversion_reference ] in
           exec add_event tid CONVERSION_INITIATED
               [ ("ad_bank_reference", VStr conversion_reference);
                 ("amount_inr", VStr (str_decimal E (amount_inr transaction)));
                 ("amount_cad",
                   VStr (str_opt_decimal E (amount_cad transaction)));
                 ("exchange_rate",
                   VStr (str_opt_decimal E (exchange_rate transaction))) ]
               "system" in
           ret true)
          (provider_call_failed tid "Currency conversion failed: ")
  end.

Definition process_adbank_conversion_callback (event_data : dict) : M bool :=
  let* tid := key_str (dict_get event_data "transaction_id") in
  let status' := dict_get event_data "status" in
  let* transaction := get_by_id tid in
  match transaction with
  | None => ret false
  | Some transaction =>
      if negb (bool_decide (status' = VStr "SUCCESS")) then
        provider_reported_failure tid "Currency conversion failed: " event_data
      else
        exec update_status tid CONVERSION_COMPLETE [] in
        exec add_event tid CONVERSION_COMPLETED event_data "system" in
        try_except
          (let recipient_details' := recipient_details transaction in
           let* transfer_id :=
             create_transfer tid "CAD" "CAD" (amount_cad transaction)
               [ ("full_name", dict_get recipient_details' "full_name");
                 ("bank_name", dict_get recipient_details' "bank_name");
                 ("account_number",
                   dict_get recipient_details' "account_number");
                 ("transit_number",
                   dict_get recipient_details' "transit_number");
                 ("institution_number",
                   dict_get recipient_details' "institution_number") ] in
           exec update_status tid FUNDS_SENT
               [ upd_wise_transfer_id transfer_id ] in
           exec add_event tid TRANSFER_INITIATED
               [ ("wise_transfer_id", VStr transfer_id);
                 ("amount_cad",
                   VStr (str_opt_decimal E (amount_cad transaction))) ]
               "system" in
           ret true)
          (provider_call_failed tid "Transfer to Canada failed: ")
  end.

Definition process_wise_transfer_callback (event_data : dict) : M bool :=
  let* tid := key_str (dict_get event_data "transaction_id") in
  let status' := dict_get event_data "status" in
  let* transaction := get_by_id tid in
  match transaction with
  | None => ret false
  | Some transaction =>
      if negb (bool_decide (status' = VStr "SUCCESS")) then
        provider_reported_failure tid "Transfer to Canada failed: " event_data
      else
        exec update_status tid COMPLETED [] in
        exec add_event tid TRANSFER_COMPLETED event_data "system" in
        let* completed_at := now in
        exec add_event tid TRANSACTION_COMPLETED
            [ ("completed_at", VStr (isoformat E completed_at)) ]
            "system" in
        ret true
  end.

Definition history_entry (event : TransactionEvent) : HistoryEntry :=
  mkHistoryEntry (event_type_value (event_type event))
                 (isoformat E (event_timestamp event))
                 (event_data event).

Definition get_transaction_status (tid : string) : M StatusDict :=
  let* transaction := get_by_id tid in
  match transaction with
  | None => raise (ValueError ("Transaction " +:+ tid +:+ " not found"))
  | Some transaction =>
      let* events := get_events_for_transaction tid in
      let history := map history_entry (sorted_by event_timestamp events) in
      ret [ ("transaction_id", FStr (transaction_id transaction));
            ("status", FStr (status_value (status transaction)));
            ("last_updated", FDatetime (updated_at transaction));
            ("history", FHistory history) ]
  end.

Definition calculate_remittance (amount_inr' : PyDecimal)
  : M RemittanceCalculation :=
  let* exchange_rate' := get_exchange_rate "INR_CAD" in
  let amount_cad' := dec_mul amount_inr' exchange_rate' in
  let fee_amount := dec_mul amount_inr' (fee_percent E) in
  let total_amount_inr := dec_add amount_inr' fee_amount in
  ret (mkRemittanceCalculation amount_inr' exchange_rate' amount_cad'
         (dec_mul (fee_percent E) dec_100) fee_amount total_amount_inr).

End Service.

(** ** A sample environment

    Identifiers ["uuid-0"], ["uuid-1"], ...; a clock that advances by one
    millisecond per reading; plain renderings; a fee of 0.5 percent; a rate
    of 0.017; gateways that always answer. *)
Definition sample_str_decimal (d : PyDecimal) : string :=
  (if dsign d then "-" else "") +:+ pretty (dcoeff d) +:+ "E" +:+ pretty (dexp d).

Definition sample_env : Env :=
  mkEnv (fun n => "uuid-" +:+ pretty n)
        (fun n => 1000 * Z.of_nat n)
        (fun t => pretty t)
        (fun t => pretty t)
        sample_str_decimal
        (mkDec false 5 (-3))
        (fun _ _ => Ok (mkDec false 17 (-3)))
        (fun n _ _ _ _ _ => Ok ("ADBANK-" +:+ pretty n))
        (fun n _ _ _ _ _ => Ok ("WISE-" +:+ pretty n))
        (fun n tid _ _ => Ok ("upi://pay/" +:+ tid)).


Definition empty_world : World := mkWorld ∅ [] [] [] 0 0.

Definition sample_recipient : CanadianRecipient :=
  mkCanadianRecipient "John Doe" "Royal Bank of Canada" "12345678" "12345"
    "123" None (Some "+16135551234") (Some "john.doe@example.com").

Definition sample_request : RemittanceRequest :=
  mkRemittanceRequest (mkDec false 10000 0) "user123" sample_recipient.

Definition sample_confirmation : RemittanceConfirmation :=
  mkRemittanceConfirmation "user@upi".

Definition callback (tid st : string) : dict :=
  [ ("transaction_id", VStr tid); ("status", VStr st) ].

(** The world after an operation, whatever it returned. *)
Definition after {A} (m : M A) (w : World) : World := snd (m w).

(** The sample transaction just created. *)
Definition world_created : World :=
  after (create_remittance sample_env sample_request) empty_world.

(** * Definitions used in the statements *)

(** ** Outcomes of the operations, written out

    Each operation of the service is later shown to compute exactly the
    outcome written here for it. *)

(** The transaction, the event and the world that [create_remittance]
    produces when the rate query is answered with [r]. *)
Definition created_transaction (E : Env) (w : World) (req : RemittanceRequest)
    (r : PyDecimal) : Transaction :=
  mkTransaction (uuid4 E (uuid_draws w)) (sender_id req) INITIATED
    (req_amount_inr req) (Some (dec_mul (req_amount_inr req) r)) (Some r)
    (Some (dec_mul (req_amount_inr req) (fee_percent E)))
    (recipient_dict (recipient req)) [] None None None
    (utcnow E (S (clock_reads w))) (utcnow E (S (S (clock_reads w)))).

Definition created_event (E : Env) (w : World) (req : RemittanceRequest)
    (r : PyDecimal) : TransactionEvent :=
  mkTransactionEvent (uuid4 E (uuid_draws w)) (uuid4 E (S (uuid_draws w)))
    (utcnow E (S (S (S (clock_reads w))))) TRANSACTION_CREATED
    [ ("amount_inr", VStr (str_decimal E (req_amount_inr req)));
      ("amount_cad", VStr (str_decimal E (dec_mul (req_amount_inr req) r)));
      ("exchange_rate", VStr (str_decimal E r));
      ("fees",
        VStr (str_decimal E (dec_mul (req_amount_inr req) (fee_percent E)))) ]
    (sender_id req).

Definition created_world (E : Env) (w : World) (req : RemittanceRequest)
    (r : PyDecimal) : World :=
  mkWorld
    (<[uuid4 E (uuid_draws w) := created_transaction E w req r]>
       (Transactions w))
    (TransactionEvents w ++ [created_event E w req r])
    (ExchangeRates w
       ++ [mkExchangeRate "INR_CAD" (utcnow E (clock_reads w)) r "AD_BANK"])
    (provider_calls w ++ [GetExchangeRate "INR_CAD"])
    (S (S (uuid_draws w))) (S (S (S (S (clock_reads w))))).

(** The two refusals of [confirm_remittance], with the exception each one
    raises: the transaction is missing, or its status is not INITIATED. *)
Inductive confirm_refusal (tid : string)
  : option Transaction -> Exception -> Prop :=
| refuse_not_found :
    confirm_refusal tid None
      (ValueError ("Transaction " +:+ tid +:+ " not found"))
| refuse_invalid_state (t : Transaction) :
    status t <> INITIATED ->
    confirm_refusal tid (Some t)
      (ValueError ("Transaction " +:+ tid +:+ " is not in INITIATED state")).

(** The world after a gateway call, and after a refused [update_status]:
    the clock has been read once and nothing has been written. *)
Definition w_call (c : ProviderCall) (w : World) : World :=
  set_provider_calls (provider_calls w ++ [c]) w.

Definition w_refused (w : World) : World :=
  set_clock_reads (S (clock_reads w)) w.

(** [confirm_remittance] on a stored transaction [t] in INITIATED whose
    fees are [f]: the link is asked for; when the collector answers, the
    status update that follows is refused. *)
Definition confirm_outcome (E : Env) (tid : string)
    (c : RemittanceConfirmation) (t : Transaction) (f : PyDecimal) (w : World)
  : Result RemittanceResponse * World :=
  let amount := dec_add (amount_inr t) f in
  let w1 := w_call (GeneratePaymentLink tid amount (upi_id c)) w in
  match upi_generate_payment_link E (length (provider_calls w)) tid amount
          (upi_id c) with
  | Ok upi_link => (Raise (ClientError undefined_attribute_name), w_refused w1)
  | Raise e => (Raise e, w1)
  end.

(** ** Stored states for the examples

    The tables outlive the calls and hold whatever has been written to
    them; the statements below are about every content.  For the examples
    the sample transaction is stored as the saga describes it at each
    stage: [w_update] stores a record with a status, the time of the update
    and further fields set; [w_event] logs an event under the next id and
    clock reading. *)
Definition updated (E : Env) (w : World) (st : TransactionStatus)
    (us : list FieldUpdate) (t : Transaction) : Transaction :=
  apply_updates us (set_status st (utcnow E (clock_reads w)) t).

Definition w_update (E : Env) (tid : string) (st : TransactionStatus)
    (us : list FieldUpdate) (t : Transaction) (w : World) : World :=
  mkWorld (<[tid := updated E w st us t]> (Transactions w))
    (TransactionEvents w) (ExchangeRates w) (provider_calls w)
    (uuid_draws w) (S (clock_reads w)).

Definition appended (E : Env) (w : World) (tid : string) (ty : EventType)
    (data : dict) (who : string) : TransactionEvent :=
  mkTransactionEvent tid (uuid4 E (uuid_draws w)) (utcnow E (clock_reads w))
    ty data who.

Definition w_event (E : Env) (tid : string) (ty : EventType) (data : dict)
    (who : string) (w : World) : World :=
  mkWorld (Transactions w)
    (TransactionEvents w ++ [appended E w tid ty data who])
    (ExchangeRates w) (provider_calls w)
    (S (uuid_draws w)) (S (clock_reads w)).

(** The record of [tid] with the status [st] and the fields [us], and one
    event of type [ty] logged for it by the system. *)
Definition staged (E : Env) (tid : string) (st : TransactionStatus)
    (us : list FieldUpdate) (ty : EventType) (data : dict) (w : World)
  : World :=
  match Transactions w !! tid with
  | Some t => w_event E tid ty data "system" (w_update E tid st us t w)
  | None => w
  end.

(** The sample transaction waiting for the payment. *)
Definition world_pending : World :=
  staged sample_env "uuid-0" PAYMENT_PENDING
    [ upd_payment_details
        [ ("upi_id", VStr "user@upi");
          ("upi_link", VStr "upi://pay/uuid-0") ] ]
    PAYMENT_INITIATED
    [ ("upi_id", VStr "user@upi"); ("amount", VStr "10050000E-3") ]
    (w_call (GeneratePaymentLink "uuid-0" (mkDec false 10050000 (-3))
               "user@upi")
            world_created).

(** The sample transaction with the conversion under way. *)
Definition world_converting : World :=
  staged sample_env "uuid-0" CONVERSION_IN_PROGRESS
    [ upd_ad_bank_reference "ADBANK-2" ]
    CONVERSION_INITIATED
    [ ("ad_bank_reference", VStr "ADBANK-2") ]
    (w_call (ConvertCurrency "uuid-0" "INR" "CAD" (mkDec false 10000 0)
               (Some (mkDec false 17 (-3))))
       (staged sample_env "uuid-0" PAYMENT_RECEIVED
          [ upd_payment_details
              [ ("upi_id", VStr "user@upi");
                ("upi_link", VStr "upi://pay/uuid-0");
                ("upi_reference", VNone) ] ]
          EV_PAYMENT_RECEIVED (callback "uuid-0" "SUCCESS")
          world_pending)).

(** The sample transaction with the funds sent. *)
Definition world_sent : World :=
  staged sample_env "uuid-0" FUNDS_SENT
    [ upd_wise_transfer_id "WISE-3" ]
    TRANSFER_INITIATED
    [ ("wise_transfer_id", VStr "WISE-3") ]
    (w_call (CreateTransfer "uuid-0" "CAD" "CAD"
               (Some (mkDec false 170000 (-3)))
               (recipient_dict sample_recipient))
       (staged sample_env "uuid-0" CONVERSION_COMPLETE []
          CONVERSION_COMPLETED (callback "uuid-0" "SUCCESS")
          world_converting)).

(** The sample transaction completed. *)
Definition world_completed : World :=
  let w1 :=
    staged sample_env "uuid-0" COMPLETED []
      TRANSFER_COMPLETED (callback "uuid-0" "SUCCESS") world_sent in
  w_event sample_env "uuid-0" TRANSACTION_COMPLETED
    [ ("completed_at",
        VStr (isoformat sample_env (utcnow sample_env (clock_reads w1)))) ]
    "system"
    (set_clock_reads (S (clock_reads w1)) w1).


(** ** Notions used to state the properties *)



(** The three callback handlers. *)
Inductive Callback := CollectorReport | ConverterReport | TransmitterReport.

Definition handler (E : Env) (cb : Callback) : dict -> M bool :=
  match cb with
  | CollectorReport => process_upi_payment_confirmation E
  | ConverterReport => process_adbank_conversion_callback E
  | TransmitterReport => process_wise_transfer_callback E
  end.

(** How many events of a type a log holds, and how many calls of a kind a
    gateway trace holds. *)
Definition count_events (ty : EventType) (l : list TransactionEvent) : nat :=
  length (filter (fun e => event_type e = ty) l).

Definition count_calls (p : ProviderCall -> bool) (l : list ProviderCall) : nat :=
  length (List.filter p l).

(** Order by a key. *)
Definition key_le {A} (key : A -> Z) (a b : A) : Prop := key a <= key b.

Definition key_lt {A} (key : A -> Z) (a b : A) : Prop := key a < key b.

(** The events of one transaction, in the order in which they were logged. *)
Definition events_of (tid : string) (w : World) : list TransactionEvent :=
  filter (fun e => ev_transaction_id e = tid) (TransactionEvents w).

Definition timestamp_le : TransactionEvent -> TransactionEvent -> Prop :=
  key_le event_timestamp.


(** The operations that change the status of a transaction. *)
Inductive SagaOp :=
| Confirm (tid : string) (c : RemittanceConfirmation)
| CollectorCallback (ev : dict)
| ConverterCallback (ev : dict)
| TransmitterCallback (ev : dict).

Definition run_op (E : Env) (op : SagaOp) (w : World) : World :=
  match op with
  | Confirm tid c => after (confirm_remittance E tid c) w
  | CollectorCallback ev => after (process_upi_payment_confirmation E ev) w
  | ConverterCallback ev => after (process_adbank_conversion_callback E ev) w
  | TransmitterCallback ev => after (process_wise_transfer_callback E ev) w
  end.

(** The transaction an operation is about. *)
Definition op_key (op : SagaOp) : Value :=
  match op with
  | Confirm tid _ => VStr tid
  | CollectorCallback ev | ConverterCallback ev | TransmitterCallback ev =>
      dict_get ev "transaction_id"
  end.

(** A sequence of saga operations, one after the other. *)
Definition run_ops (E : Env) (ops : list SagaOp) (w : World) : World :=
  fold_left (fun w' op => run_op E op w') ops w.

(** The completed sample transaction after a late delivery of the
    successful collector callback. *)
Definition world_reopened : World :=
  run_op sample_env (CollectorCallback (callback "uuid-0" "SUCCESS"))
    world_completed.

(** The transition table of the specification: the six forward rows, and
    the move to FAILED from any state that is not terminal. *)
Inductive spec_forward : TransactionStatus -> TransactionStatus -> Prop :=
| fwd_confirmation : spec_forward INITIATED PAYMENT_PENDING
| fwd_payment : spec_forward PAYMENT_PENDING PAYMENT_RECEIVED
| fwd_conversion_started : spec_forward PAYMENT_RECEIVED CONVERSION_IN_PROGRESS
| fwd_conversion_done : spec_forward CONVERSION_IN_PROGRESS CONVERSION_COMPLETE
| fwd_transfer_started : spec_forward CONVERSION_COMPLETE FUNDS_SENT
| fwd_transfer_done : spec_forward FUNDS_SENT COMPLETED.

Definition spec_terminal (s : TransactionStatus) : Prop :=
  s = COMPLETED \/ s = FAILED.

Inductive spec_legal : TransactionStatus -> TransactionStatus -> Prop :=
| legal_forward a b : spec_forward a b -> spec_legal a b
| legal_failure a : ~ spec_terminal a -> spec_legal a FAILED.

(** Successive readings of the clock increase. *)
Definition clock_increasing (E : Env) : Prop :=
  forall i j : nat, (i < j)%nat -> utcnow E i < utcnow E j.

(** ** Further notions: the whole service *)

(** The fields of a transaction that are set at creation and are not among
    those the service ever assigns afterwards. *)
Definition frozen_fields_kept (t t' : Transaction) : Prop :=
  transaction_id t' = transaction_id t /\
  user_id t' = user_id t /\
  amount_inr t' = amount_inr t /\
  amount_cad t' = amount_cad t /\
  exchange_rate t' = exchange_rate t /\
  fees t' = fees t /\
  recipient_details t' = recipient_details t /\
  created_at t' = created_at t.

(** Every operation of [RemittanceService]. *)
Inductive ServiceCall :=
| CallCreate (req : RemittanceRequest)
| CallConfirm (tid : string) (c : RemittanceConfirmation)
| CallCollector (ev : dict)
| CallConverter (ev : dict)
| CallTransmitter (ev : dict)
| CallStatus (tid : string)
| CallCalculate (amount : PyDecimal).

Definition run_call (E : Env) (c : ServiceCall) (w : World) : World :=
  match c with
  | CallCreate req => after (create_remittance E req) w
  | CallConfirm tid c => after (confirm_remittance E tid c) w
  | CallCollector ev => after (process_upi_payment_confirmation E ev) w
  | CallConverter ev => after (process_adbank_conversion_callback E ev) w
  | CallTransmitter ev => after (process_wise_transfer_callback E ev) w
  | CallStatus tid => after (get_transaction_status E tid) w
  | CallCalculate amount => after (calculate_remittance E amount) w
  end.

(** The sample environment with a collector that is down. *)
Definition collector_down_env : Env :=
  mkEnv (uuid4 sample_env) (utcnow sample_env) (isoformat sample_env)
        (str_datetime sample_env) (str_decimal sample_env)
        (fee_percent sample_env) (adbank_get_exchange_rate sample_env)
        (adbank_convert_currency sample_env)
        (wise_create_transfer sample_env)
        (fun _ _ _ _ => Raise (GatewayError "UPI provider unavailable")).

(** The sample environment with a converter that does not quote. *)
Definition no_quote_env : Env :=
  mkEnv (uuid4 sample_env) (utcnow sample_env) (isoformat sample_env)
        (str_datetime sample_env) (str_decimal sample_env)
        (fee_percent sample_env)
        (fun _ _ => Raise (GatewayError "AD Bank unavailable"))
        (adbank_convert_currency sample_env)
        (wise_create_transfer sample_env)
        (upi_generate_payment_link sample_env).

(** The stores of [w'] hold everything the stores of [w] hold: the event
    log and the gateway trace of [w] are prefixes of those of [w'], every
    stored transaction is still stored, and the clock and the id generator
    have not gone back. *)
Definition extends (w w' : World) : Prop :=
  (exists new, TransactionEvents w' = TransactionEvents w ++ new) /\
  (exists new, provider_calls w' = provider_calls w ++ new) /\
  (forall k, is_Some (Transactions w !! k) -> is_Some (Transactions w' !! k)) /\
  (uuid_draws w <= uuid_draws w')%nat /\
  (clock_reads w <= clock_reads w')%nat.

(** A transaction as creation leaves it: in INITIATED, with no payment
    details, no provider reference and no failure reason. *)
Definition as_created (t : Transaction) : Prop :=
  status t = INITIATED /\
  payment_details t = [] /\
  wise_transfer_id t = None /\
  ad_bank_reference t = None /\
  failure_reason t = None.

(** No stored transaction has moved on from creation, and nothing but
    creations has been logged. *)
Definition never_progressed (w : World) : Prop :=
  (forall k t, Transactions w !! k = Some t -> as_created t) /\
  Forall (fun e => event_type e = TRANSACTION_CREATED) (TransactionEvents w).

(** [w'] differs from [w] by readings of the clock and by gateway calls
    only: nothing has been written to a table and no id has been drawn. *)
Definition quiet (w w' : World) : Prop :=
  Transactions w' = Transactions w /\
  TransactionEvents w' = TransactionEvents w /\
  ExchangeRates w' = ExchangeRates w /\
  uuid_draws w' = uuid_draws w /\
  (clock_reads w <= clock_reads w')%nat /\
  exists new, provider_calls w' = provider_calls w ++ new.

(** The world the service reaches from empty tables by a creation, a
    confirmation, a collector callback and a second creation. *)
Definition world_two_created : World :=
  run_call sample_env (CallCreate sample_request)
    (run_call sample_env (CallCollector (callback "uuid-0" "SUCCESS"))
       (run_call sample_env (CallConfirm "uuid-0" sample_confirmation)
          (run_call sample_env (CallCreate sample_request) empty_world))).

(** ** The rest of the repositories *)

(** [Table.query] on one partition of the rates table: the items come back
    in ascending order of the range key, the [isoformat] text of the
    timestamp. *)
Definition rates_by_range_key (E : Env) (l : list ExchangeRate)
  : list ExchangeRate :=
  sort_by (fun x y => String.leb (isoformat E (rate_timestamp x))
                                 (isoformat E (rate_timestamp y))) l.

(** Python's [max(xs, key=...)], started with the first element: a later
    element replaces the best one only when its key is strictly larger. *)
Fixpoint max_by {A} (key : A -> Z) (best : A) (l : list A) : A :=
  match l with
  | [] => best
  | x :: l' => max_by key (if key best <? key x then x else best) l'
  end.

(** [ExchangeRateRepository.get_latest_rate] *)
Definition get_latest_rate (E : Env) (pair : string)
  : M (option ExchangeRate) :=
  fun w =>
    let results :=
      rates_by_range_key E
        (filter (fun r => currency_pair r = pair) (ExchangeRates w)) in
    (Ok match results with
        | [] => None
        | x :: l => Some (max_by rate_timestamp x l)
        end, w).

(** [ExchangeRateRepository.get_historical_rates] and
    [TransactionRepository.get_recent_transactions]: both return the empty
    list without reading the table. *)
Definition get_historical_rates (pair : string) (days : Z)
  : M (list ExchangeRate) :=
  ret [].

Definition get_recent_transactions (limit : Z) : M (list Transaction) :=
  ret [].

(** The observations stored for a pair. *)
Definition rates_of (pair : string) (w : World) : list ExchangeRate :=
  filter (fun r => currency_pair r = pair) (ExchangeRates w).

(** The worlds the service can be in: it starts with empty tables and is
    driven by calls, in any number and order, with any inputs. *)
Inductive reachable (E : Env) : World -> Prop :=
| reach_start : reachable E empty_world
| reach_call (c : ServiceCall) (w : World) :
    reachable E w -> reachable E (run_call E c w).

(** Every logged event belongs to a stored transaction. *)
Definition events_refer_to_transactions (w : World) : Prop :=
  Forall (fun e => is_Some (Transactions w !! ev_transaction_id e))
         (TransactionEvents w).

(** The log is in the order of the clock readings that stamped it, all of
    them taken already. *)
Definition log_follows_clock (E : Env) (w : World) : Prop :=
  exists ks,
    map event_timestamp (TransactionEvents w) = map (utcnow E) ks /\
    StronglySorted lt ks /\
    Forall (fun k => (k < clock_reads w)%nat) ks.

(** ** The routes of the remittance API

    [app/api/v1/routes/remittances.py].  A route hands the framework a
    response body or raises an [HTTPException] with a status code and a
    detail. *)
Inductive HTTPResult (A : Type) :=
| Respond (a : A)
| HTTPException (status_code : Z) (detail : string).
Arguments Respond {A} a.
Arguments HTTPException {A} status_code detail.

Module routes.

(** [try: return await m
     except ValueError as e:
         raise HTTPException(status_code=code, detail=str(e))
     except Exception as e:
         raise HTTPException(status_code=500, detail=f"{prefix}{str(e)}")] *)
Definition guarded {A} (m : M A) (code : Z) (prefix : string)
  : World -> HTTPResult A * World :=
  fun w =>
    match m w with
    | (Ok a, w') => (Respond a, w')
    | (Raise (ValueError msg), w') => (HTTPException code msg, w')
    | (Raise e, w') => (HTTPException 500 (prefix +:+ exc_str e), w')
    end.

Definition create_remittance (E : Env) (remittance_request : RemittanceRequest)
  : World -> HTTPResult RemittanceResponse * World :=
  guarded (create_remittance E remittance_request)
          400 "Error creating remittance: ".

Definition confirm_remittance (E : Env) (tid : string)
    (confirmation : RemittanceConfirmation)
  : World -> HTTPResult RemittanceResponse * World :=
  guarded (confirm_remittance E tid confirmation)
          400 "Error confirming remittance: ".

(** The response model is built from the four entries of the dictionary
    the service returns. *)
Definition get_remittance_status (E : Env) (tid : string)
  : World -> HTTPResult StatusDict * World :=
  guarded (get_transaction_status E tid)
          404 "Error getting remittance status: ".

Definition list_remittances (user_id' : string) (limit offset : Z)
  : World -> HTTPResult (list RemittanceResponse) * World :=
  fun w => (Respond [], w).

Definition calculate_remittance (E : Env) (amount_inr' : PyDecimal)
  : World -> HTTPResult RemittanceCalculation * World :=
  guarded (calculate_remittance E amount_inr')
          400 "Error calculating remittance: ".

End routes.

(** The exception a route raises for an exception of the service. *)
Definition http_error {A} (code : Z) (prefix : string) (e : Exception)
  : HTTPResult A :=
  match e with
  | ValueError msg => HTTPException code msg
  | _ => HTTPException 500 (prefix +:+ exc_str e)
  end.

(** The ids under which transactions are stored. *)
Definition stored_ids (w : World) : gset string := dom (Transactions w).

(** * Properties *)

(** Running the monadic code: unfold the combinators and compute. *)
Ltac run_m :=
  unfold bind, ret, raise, try_except, gateway, now, new_uuid, get_by_id,
    create_transaction, update, after; simpl.

(** ** Decimal arithmetic *)

(** A product whose coefficient fits the precision of the context is
    exact; a longer one is rounded to 28 digits. *)
Lemma dec_mul_exact (a b : PyDecimal) :
  (ndigits (dcoeff a * dcoeff b) <= prec)%nat ->
  dec_mul a b
  = mkDec (xorb (dsign a) (dsign b)) (dcoeff a * dcoeff b) (dexp a + dexp b).
Proof.
  intros Hfit. unfold dec_mul, dec_fix. cbn [dcoeff dsign dexp].
  apply Nat.leb_le in Hfit. rewrite Hfit. reflexivity.
Qed.

Example dec_mul_rounds :
  dec_mul (mkDec false 12345678901234567890 0)
          (mkDec false 12345678901234567895 (-3))
  = mkDec false 1524157875323883675636335944 8.
Proof. vm_compute. reflexivity. Qed.

Example dec_add_scenario :
  dec_add (mkDec false 10000 0) (mkDec false 50000 (-3))
  = mkDec false 10050000 (-3).
Proof. vm_compute. reflexivity. Qed.

(** ** The scenario of the specification on the sample environment *)

Example scenario_amounts :
  fst (create_remittance sample_env sample_request empty_world)
  = Ok (mkRemittanceResponse "uuid-0" "INITIATED" (mkDec false 10000 0)
          (Some (mkDec false 170000 (-3))) (Some (mkDec false 17 (-3)))
          (Some (mkDec false 50000 (-3)))
          (recipient_dict sample_recipient) 1000).
Proof. vm_compute. reflexivity. Qed.

(** ** Creation *)

Lemma create_remittance_run (E : Env) (w : World) (req : RemittanceRequest)
    (r : PyDecimal) :
  adbank_get_exchange_rate E (length (provider_calls w)) "INR_CAD" = Ok r ->
  create_remittance E req w
  = (Ok (response_of (created_transaction E w req r)), created_world E w req r).
Proof.
  intros Hrate.
  unfold create_remittance, get_exchange_rate, add_rate, new_transaction,
    add_event.
  run_m. rewrite Hrate. reflexivity.
Qed.

(** C3. For a creation request, when the converter gateway answers the rate
    query with [r], [create_remittance] returns a response whose
    [amount_cad] is [amount_inr * r], whose [fees] is
    [amount_inr * fee_percent] and whose status is INITIATED; the
    transaction stored under the returned id carries the same values; and
    the event log grows by exactly one TRANSACTION_CREATED event of that
    transaction whose actor is the sender id. *)
Theorem create_remittance_initiated (E : Env) (w : World)
    (req : RemittanceRequest) (r : PyDecimal) :
  adbank_get_exchange_rate E (length (provider_calls w)) "INR_CAD" = Ok r ->
  exists resp w' t ev,
    create_remittance E req w = (Ok resp, w') /\
    resp_amount_inr resp = req_amount_inr req /\
    resp_exchange_rate resp = Some r /\
    resp_amount_cad resp = Some (dec_mul (req_amount_inr req) r) /\
    resp_fees resp = Some (dec_mul (req_amount_inr req) (fee_percent E)) /\
    resp_status resp = "INITIATED" /\
    Transactions w' !! resp_transaction_id resp = Some t /\
    response_of t = resp /\
    status t = INITIATED /\
    user_id t = sender_id req /\
    TransactionEvents w' = TransactionEvents w ++ [ev] /\
    event_type ev = TRANSACTION_CREATED /\
    ev_transaction_id ev = resp_transaction_id resp /\
    actor ev = sender_id req.
Proof.
  intros Hrate.
  exists (response_of (created_transaction E w req r)), (created_world E w req r),
    (created_transaction E w req r), (created_event E w req r).
  split; [apply create_remittance_run; exact Hrate|].
  simpl. rewrite lookup_insert_eq. repeat split; reflexivity.
Qed.

Lemma create_remittance_initiated_witness :
  exists resp w',
    create_remittance sample_env sample_request empty_world = (Ok resp, w') /\
    resp_amount_cad resp = Some (mkDec false 170000 (-3)) /\
    resp_fees resp = Some (mkDec false 50000 (-3)) /\
    resp_status resp = "INITIATED".
Proof.
  destruct (create_remittance_initiated sample_env empty_world sample_request
              (mkDec false 17 (-3)) eq_refl)
    as (resp & w' & t & ev & Hrun & _ & _ & Hcad & Hfees & Hst & _).
  exists resp, w'. repeat split; assumption.
Defined.

(** ** Confirmation *)

Lemma confirm_remittance_not_found (E : Env) (w : World) (tid : string)
    (c : RemittanceConfirmation) :
  Transactions w !! tid = None ->
  confirm_remittance E tid c w
  = (Raise (ValueError ("Transaction " +:+ tid +:+ " not found")), w).
Proof.
  intros Ht. unfold confirm_remittance, get_by_id, bind. rewrite Ht.
  reflexivity.
Qed.

Lemma confirm_remittance_not_initiated (E : Env) (w : World) (tid : string)
    (c : RemittanceConfirmation) (t : Transaction) :
  Transactions w !! tid = Some t ->
  status t <> INITIATED ->
  confirm_remittance E tid c w
  = (Raise (ValueError ("Transaction " +:+ tid
                          +:+ " is not in INITIATED state")), w).
Proof.
  intros Ht Hst. unfold confirm_remittance, get_by_id, bind. rewrite Ht.
  cbv beta iota. rewrite bool_decide_eq_false_2 by exact Hst. reflexivity.
Qed.

Lemma confirm_remittance_no_fees (E : Env) (w : World) (tid : string)
    (c : RemittanceConfirmation) (t : Transaction) :
  Transactions w !! tid = Some t ->
  status t = INITIATED ->
  fees t = None ->
  confirm_remittance E tid c w
  = (Raise (TypeError "unsupported operand type(s) for +"), w).
Proof.
  intros Ht Hst Hf. unfold confirm_remittance, get_by_id, bind. rewrite Ht.
  cbv beta iota. rewrite bool_decide_eq_true_2 by exact Hst.
  change (negb true) with false. cbv beta iota.
  unfold amount_plus_fees. rewrite Hf. reflexivity.
Qed.

(** C4. [confirm_remittance] raises the not-found error when no transaction
    has the id, and the invalid-state error when the stored status is not
    INITIATED; in both cases the world is left exactly as it was: no event
    is appended, no transaction is changed and no gateway is called. *)
Theorem confirm_remittance_refused (E : Env) (w : World) (tid : string)
    (c : RemittanceConfirmation) (e : Exception) :
  confirm_refusal tid (Transactions w !! tid) e ->
  confirm_remittance E tid c w = (Raise e, w).
Proof.
  intros Href.
  inversion Href as [Hnone | t Hst Hsome]; subst.
  - apply confirm_remittance_not_found. symmetry. assumption.
  - apply (confirm_remittance_not_initiated E w tid c t); [|exact Hst].
    symmetry. assumption.
Qed.

Lemma confirm_remittance_refused_witness :
  confirm_remittance sample_env "uuid-0" sample_confirmation empty_world
  = (Raise (ValueError "Transaction uuid-0 not found"), empty_world)
  /\ exists t,
       Transactions world_pending !! "uuid-0" = Some t /\
       status t = PAYMENT_PENDING /\
       confirm_remittance sample_env "uuid-0" sample_confirmation world_pending
       = (Raise (ValueError "Transaction uuid-0 is not in INITIATED state"),
          world_pending).
Proof.
  split.
  - apply (confirm_remittance_refused sample_env empty_world "uuid-0").
    vm_compute. constructor.
  - destruct (Transactions world_pending !! "uuid-0") as [t|] eqn:Ht;
      [|vm_compute in Ht; discriminate].
    exists t. split; [reflexivity|].
    assert (Hst : status t = PAYMENT_PENDING)
      by (vm_compute in Ht; injection Ht as <-; reflexivity).
    split; [exact Hst|].
    apply (confirm_remittance_refused sample_env world_pending "uuid-0").
    rewrite Ht. apply (refuse_invalid_state "uuid-0" t).
    rewrite Hst. discriminate.
Defined.

(** ** Estimates *)

Lemma calculate_remittance_run (E : Env) (w : World) (amount : PyDecimal) :
  calculate_remittance E amount w
  = (match adbank_get_exchange_rate E (length (provider_calls w)) "INR_CAD" with
     | Ok r =>
         Ok (mkRemittanceCalculation amount r (dec_mul amount r)
               (dec_mul (fee_percent E) dec_100)
               (dec_mul amount (fee_percent E))
               (dec_add amount (dec_mul amount (fee_percent E))))
     | Raise e => Raise e
     end,
     set_provider_calls (provider_calls w ++ [GetExchangeRate "INR_CAD"]) w).
Proof.
  unfold calculate_remittance, get_exchange_rate. run_m.
  destruct (adbank_get_exchange_rate E _ _); reflexivity.
Qed.


(** C10. With the same rate answered by the converter gateway and the same
    configured fee, the [amount_cad] and [fee_amount] of the estimate equal
    the [amount_cad] and [fees] that [create_remittance] returns and stores
    on the created transaction, and the estimate's [total_amount_inr] is
    [amount_inr + fee_amount]. *)
Theorem estimate_agrees_with_creation (E1 E2 : Env) (w1 w2 : World)
    (req : RemittanceRequest) (r : PyDecimal) :
  adbank_get_exchange_rate E1 (length (provider_calls w1)) "INR_CAD" = Ok r ->
  adbank_get_exchange_rate E2 (length (provider_calls w2)) "INR_CAD" = Ok r ->
  fee_percent E1 = fee_percent E2 ->
  exists calc w1' resp w2' t,
    calculate_remittance E1 (req_amount_inr req) w1 = (Ok calc, w1') /\
    create_remittance E2 req w2 = (Ok resp, w2') /\
    Transactions w2' !! resp_transaction_id resp = Some t /\
    resp_amount_cad resp = Some (calc_amount_cad calc) /\
    resp_fees resp = Some (calc_fee_amount calc) /\
    amount_cad t = Some (calc_amount_cad calc) /\
    fees t = Some (calc_fee_amount calc) /\
    calc_total_amount_inr calc
    = dec_add (calc_amount_inr calc) (calc_fee_amount calc) /\
    calc_amount_inr calc = req_amount_inr req.
Proof.
  intros Hr1 Hr2 Hfee.
  rewrite calculate_remittance_run, Hr1, (create_remittance_run E2 w2 req r Hr2).
  do 5 eexists. split; [reflexivity|]. split; [reflexivity|].
  simpl. rewrite lookup_insert_eq, Hfee. repeat split; reflexivity.
Qed.

Lemma estimate_agrees_with_creation_witness :
  exists calc w1' resp w2',
    calculate_remittance sample_env (mkDec false 10000 0) world_completed
    = (Ok calc, w1') /\
    create_remittance sample_env sample_request empty_world = (Ok resp, w2') /\
    resp_amount_cad resp = Some (calc_amount_cad calc) /\
    resp_fees resp = Some (calc_fee_amount calc).
Proof.
  destruct (estimate_agrees_with_creation sample_env sample_env
              world_completed empty_world sample_request (mkDec false 17 (-3))
              eq_refl eq_refl eq_refl)
    as (calc & w1' & resp & w2' & t & H1 & H2 & _ & H3 & H4 & _).
  exists calc, w1', resp, w2'. repeat split; assumption.
Defined.

(** ** The status update

    Every expression [update_status] builds names the status by a
    placeholder, so the table refuses every request it sends. *)

Lemma uses_name_placeholder_app (a b : string) :
  uses_name_placeholder (a +:+ b)
  = uses_name_placeholder a || uses_name_placeholder b.
Proof.
  induction a as [|c a IH]; simpl; [reflexivity|].
  destruct (Ascii.eqb c "#"); [reflexivity|exact IH].
Qed.

Lemma status_update_expression_placeholder (n : nat) :
  uses_name_placeholder (status_update_expression n) = true.
Proof.
  unfold status_update_expression.
  generalize (seq 0 n).
  assert (H : uses_name_placeholder
                "SET #status = :status, updated_at = :updated_at" = true)
    by reflexivity.
  revert H.
  generalize "SET #status = :status, updated_at = :updated_at".
  intros acc Hacc l. revert acc Hacc.
  induction l as [|i l IH]; intros acc Hacc; simpl; [exact Hacc|].
  apply IH. rewrite !uses_name_placeholder_app, Hacc. reflexivity.
Qed.

Lemma update_status_run (E : Env) (w : World) (tid : string)
    (st : TransactionStatus) (us : list FieldUpdate) :
  update_status E tid st us w
  = (Raise (ClientError undefined_attribute_name), w_refused w).
Proof.
  unfold update_status, bind, now, update. cbv beta iota.
  rewrite status_update_expression_placeholder. reflexivity.
Qed.

(** ** Confirmation of a transaction in INITIATED *)

Lemma confirm_remittance_run (E : Env) (w : World) (tid : string)
    (c : RemittanceConfirmation) (t : Transaction) (f : PyDecimal) :
  Transactions w !! tid = Some t ->
  status t = INITIATED ->
  fees t = Some f ->
  confirm_remittance E tid c w = confirm_outcome E tid c t f w.
Proof.
  intros Ht Hst Hf. unfold confirm_remittance, confirm_outcome.
  unfold get_by_id at 1. unfold bind at 1. rewrite Ht. cbv beta iota.
  rewrite bool_decide_eq_true_2 by exact Hst.
  change (negb true) with false. cbv beta iota.
  unfold amount_plus_fees at 1. rewrite Hf.
  unfold bind at 1, ret at 1. cbv beta iota.
  unfold generate_payment_link, gateway. unfold bind at 1. cbv beta iota.
  destruct (upi_generate_payment_link E _ _ _ _) as [link|e]; [|reflexivity].
  unfold bind at 1. rewrite update_status_run. reflexivity.
Qed.

(** ** The callback handlers *)

(** A callback for a transaction that is not stored is a no-op. *)
Lemma callback_unknown_transaction (E : Env) (w : World) (ev : dict)
    (tid : string) :
  dict_get ev "transaction_id" = VStr tid ->
  Transactions w !! tid = None ->
  process_upi_payment_confirmation E ev w = (Ok false, w) /\
  process_adbank_conversion_callback E ev w = (Ok false, w) /\
  process_wise_transfer_callback E ev w = (Ok false, w).
Proof.
  intros Hkey Ht.
  unfold process_upi_payment_confirmation, process_adbank_conversion_callback,
    process_wise_transfer_callback.
  rewrite Hkey. unfold key_str, get_by_id, bind, ret. rewrite Ht.
  repeat split; reflexivity.
Qed.

(** A callback whose transaction id is not a string is refused before
    anything is read. *)
Lemma callback_key_refused (E : Env) (w : World) (ev : dict) :
  (forall s, dict_get ev "transaction_id" <> VStr s) ->
  after (process_upi_payment_confirmation E ev) w = w /\
  after (process_adbank_conversion_callback E ev) w = w /\
  after (process_wise_transfer_callback E ev) w = w.
Proof.
  intros Hkey.
  unfold after, process_upi_payment_confirmation,
    process_adbank_conversion_callback, process_wise_transfer_callback.
  destruct (dict_get ev "transaction_id") as [|s|d|z];
    try (repeat split; reflexivity).
  exfalso. exact (Hkey s eq_refl).
Qed.

Lemma provider_reported_failure_run (E : Env) (w : World) (tid prefix : string)
    (ev : dict) :
  provider_reported_failure E tid prefix ev w
  = (Raise (ClientError undefined_attribute_name), w_refused w).
Proof.
  unfold provider_reported_failure. unfold bind at 1.
  rewrite update_status_run. reflexivity.
Qed.

(** A callback for a stored transaction: the first thing each handler does
    with it is a status update, in the failure branch as in the success
    branch, and the update is refused. *)
Lemma callback_stored_transaction (E : Env) (cb : Callback) (w : World)
    (ev : dict) (tid : string) (t : Transaction) :
  dict_get ev "transaction_id" = VStr tid ->
  Transactions w !! tid = Some t ->
  handler E cb ev w
  = (Raise (ClientError undefined_attribute_name), w_refused w).
Proof.
  intros Hkey Ht.
  destruct cb; unfold handler, process_upi_payment_confirmation,
    process_adbank_conversion_callback, process_wise_transfer_callback;
    rewrite Hkey; unfold key_str; unfold bind at 1, ret at 1; cbv beta iota;
    unfold get_by_id at 1; unfold bind at 1; rewrite Ht; cbv beta iota;
    (destruct (negb _);
     [apply provider_reported_failure_run
     |unfold bind at 1; rewrite update_status_run; reflexivity]).
Qed.

(** ** Operations that write nothing *)

Lemma quiet_refl (w : World) : quiet w w.
Proof.
  unfold quiet. repeat split; try reflexivity.
  exists []. rewrite app_nil_r. reflexivity.
Qed.

Lemma quiet_refused (w : World) : quiet w (w_refused w).
Proof.
  unfold quiet, w_refused. simpl. repeat split; try lia.
  exists []. rewrite app_nil_r. reflexivity.
Qed.

Lemma quiet_call (c : ProviderCall) (w : World) : quiet w (w_call c w).
Proof.
  unfold quiet, w_call. simpl. repeat split; try lia. exists [c]. reflexivity.
Qed.

Lemma quiet_call_refused (c : ProviderCall) (w : World) :
  quiet w (w_refused (w_call c w)).
Proof.
  unfold quiet, w_call, w_refused. simpl. repeat split; try lia.
  exists [c]. reflexivity.
Qed.

Lemma quiet_trans (w1 w2 w3 : World) : quiet w1 w2 -> quiet w2 w3 -> quiet w1 w3.
Proof.
  intros (Ht1 & He1 & Hr1 & Hu1 & Hc1 & n1 & Hp1)
         (Ht2 & He2 & Hr2 & Hu2 & Hc2 & n2 & Hp2).
  unfold quiet. rewrite Ht2, He2, Hr2, Hu2, Hp2, Hp1.
  repeat split; try assumption; try lia.
  exists (n1 ++ n2). rewrite app_assoc. reflexivity.
Qed.

Lemma callback_quiet (E : Env) (cb : Callback) (w : World) (ev : dict) :
  quiet w (after (handler E cb ev) w).
Proof.
  destruct (dict_get ev "transaction_id") as [|tid|d|z] eqn:Hkey;
    try (destruct (callback_key_refused E w ev) as (H1 & H2 & H3);
         [intros s; rewrite Hkey; discriminate
         |destruct cb; unfold handler; rewrite ?H1, ?H2, ?H3;
          apply quiet_refl]).
  destruct (Transactions w !! tid) as [t|] eqn:Ht.
  - unfold after.
    rewrite (callback_stored_transaction E cb w ev tid t Hkey Ht).
    apply quiet_refused.
  - unfold after.
    destruct (callback_unknown_transaction E w ev tid Hkey Ht)
      as (H1 & H2 & H3).
    destruct cb; unfold handler; rewrite ?H1, ?H2, ?H3; apply quiet_refl.
Qed.

Lemma confirm_quiet (E : Env) (w : World) (tid : string)
    (c : RemittanceConfirmation) :
  quiet w (after (confirm_remittance E tid c) w).
Proof.
  unfold after.
  destruct (Transactions w !! tid) as [t|] eqn:Ht;
    [|rewrite (confirm_remittance_not_found E w tid c Ht); apply quiet_refl].
  destruct (decide (status t = INITIATED)) as [Hst|Hst];
    [|rewrite (confirm_remittance_not_initiated E w tid c t Ht Hst);
      apply quiet_refl].
  destruct (fees t) as [f|] eqn:Hf;
    [|rewrite (confirm_remittance_no_fees E w tid c t Ht Hst Hf);
      apply quiet_refl].
  rewrite (confirm_remittance_run E w tid c t f Ht Hst Hf).
  unfold confirm_outcome.
  destruct (upi_generate_payment_link E _ _ _ _); simpl snd.
  - apply quiet_call_refused.
  - apply quiet_call.
Qed.

Lemma saga_quiet (E : Env) (op : SagaOp) (w : World) :
  quiet w (run_op E op w).
Proof.
  destruct op as [tid c | ev | ev | ev]; unfold run_op.
  - apply confirm_quiet.
  - apply (callback_quiet E CollectorReport).
  - apply (callback_quiet E ConverterReport).
  - apply (callback_quiet E TransmitterReport).
Qed.

Lemma sagas_quiet (E : Env) (ops : list SagaOp) (w : World) :
  quiet w (run_ops E ops w).
Proof.
  unfold run_ops. revert w.
  induction ops as [|op ops IH]; intros w; simpl; [apply quiet_refl|].
  eapply quiet_trans; [apply saga_quiet|apply IH].
Qed.
Lemma get_transaction_status_reads_only (E : Env) (w : World) (tid : string) :
  after (get_transaction_status E tid) w = w.
Proof.
  unfold after, get_transaction_status, get_by_id, bind.
  cbv beta iota. destruct (Transactions w !! tid); reflexivity.
Qed.

Lemma call_quiet (E : Env) (c : ServiceCall) (w : World) :
  match c with
  | CallCreate _ => True
  | _ => quiet w (run_call E c w)
  end.
Proof.
  destruct c as [req | tid c | ev | ev | ev | tid | amount]; simpl.
  - exact I.
  - apply confirm_quiet.
  - apply (callback_quiet E CollectorReport).
  - apply (callback_quiet E ConverterReport).
  - apply (callback_quiet E TransmitterReport).
  - rewrite get_transaction_status_reads_only. apply quiet_refl.
  - unfold after. rewrite calculate_remittance_run.
    apply (quiet_call (GetExchangeRate "INR_CAD")).
Qed.

Lemma count_calls_app (p : ProviderCall -> bool) (l1 l2 : list ProviderCall) :
  count_calls p (l1 ++ l2) = (count_calls p l1 + count_calls p l2)%nat.
Proof.
  unfold count_calls. rewrite List.filter_app, length_app. reflexivity.
Qed.

(** ** The collector callback *)

(** C1. What the code does with a successful collector callback for a
    stored transaction, whatever its stored status, the expected
    predecessor PAYMENT_PENDING included: the handler asks for the status
    PAYMENT_RECEIVED first, the table refuses the request, and the
    [ClientError] leaves the handler.  A second delivery of the same
    callback meets the same refusal.  After both deliveries the record is
    as it was, no PAYMENT_RECEIVED event has been appended and no
    conversion has been attempted: the transition the claim expects of the
    first delivery is not applied, and no delivery is acknowledged. *)
Theorem collector_callback_refused (E : Env) (w : World) (ev : dict)
    (tid : string) (t : Transaction) :
  dict_get ev "transaction_id" = VStr tid ->
  Transactions w !! tid = Some t ->
  let w1 := after (process_upi_payment_confirmation E ev) w in
  let w2 := after (process_upi_payment_confirmation E ev) w1 in
  fst (process_upi_payment_confirmation E ev w)
  = Raise (ClientError undefined_attribute_name) /\
  fst (process_upi_payment_confirmation E ev w1)
  = Raise (ClientError undefined_attribute_name) /\
  Transactions w2 !! tid = Some t /\
  count_events EV_PAYMENT_RECEIVED (TransactionEvents w2)
  = count_events EV_PAYMENT_RECEIVED (TransactionEvents w) /\
  count_calls is_convert_currency (provider_calls w2)
  = count_calls is_convert_currency (provider_calls w).
Proof.
  intros Hkey Ht w1 w2.
  pose proof (callback_stored_transaction E CollectorReport w ev tid t Hkey Ht)
    as Hrun1.
  simpl handler in Hrun1.
  assert (Hw1 : w1 = w_refused w) by (unfold w1, after; rewrite Hrun1; reflexivity).
  assert (Ht1 : Transactions w1 !! tid = Some t) by (rewrite Hw1; exact Ht).
  pose proof (callback_stored_transaction E CollectorReport w1 ev tid t Hkey Ht1)
    as Hrun2.
  simpl handler in Hrun2.
  assert (Hw2 : w2 = w_refused w1) by (unfold w2, after; rewrite Hrun2; reflexivity).
  rewrite Hrun1, Hrun2, Hw2, Hw1. simpl.
  repeat split; try reflexivity. exact Ht.
Qed.

Lemma collector_callback_refused_witness :
  exists t,
    Transactions world_pending !! "uuid-0" = Some t /\
    status t = PAYMENT_PENDING /\
    let w1 := after (process_upi_payment_confirmation sample_env
                       (callback "uuid-0" "SUCCESS")) world_pending in
    let w2 := after (process_upi_payment_confirmation sample_env
                       (callback "uuid-0" "SUCCESS")) w1 in
    fst (process_upi_payment_confirmation sample_env
           (callback "uuid-0" "SUCCESS") world_pending)
    = Raise (ClientError undefined_attribute_name) /\
    Transactions w2 !! "uuid-0" = Some t /\
    count_events EV_PAYMENT_RECEIVED (TransactionEvents w2) = 0%nat /\
    count_calls is_convert_currency (provider_calls w2) = 0%nat.
Proof.
  destruct (Transactions world_pending !! "uuid-0") as [t|] eqn:Ht;
    [|vm_compute in Ht; discriminate].
  exists t. split; [reflexivity|].
  split; [vm_compute in Ht; injection Ht as <-; reflexivity|].
  destruct (collector_callback_refused sample_env world_pending
              (callback "uuid-0" "SUCCESS") "uuid-0" t eq_refl Ht)
    as (Hrun & _ & Hrec & Hev & Hcalls).
  cbv zeta. split; [exact Hrun|]. split; [exact Hrec|].
  split; [rewrite Hev|rewrite Hcalls]; vm_compute; reflexivity.
Defined.

(** ** The status along the saga *)

(** C2. Along any sequence of saga operations (confirmation and the three
    callback handlers, with any inputs and outcomes) the stored status of
    a transaction is reached from the one it had by legal moves only, and
    a status that is COMPLETED or FAILED stays as it is. *)
Theorem status_never_reverts (E : Env) (ops : list SagaOp) (w : World)
    (tid : string) (t : Transaction) :
  Transactions w !! tid = Some t ->
  exists t',
    Transactions (run_ops E ops w) !! tid = Some t' /\
    rtc spec_legal (status t) (status t') /\
    (spec_terminal (status t) -> status t' = status t).
Proof.
  intros Ht. exists t.
  destruct (sagas_quiet E ops w) as (Htx & _).
  rewrite Htx. split; [exact Ht|]. split; [apply rtc_refl|reflexivity].
Qed.

Lemma status_never_reverts_witness :
  exists t',
    Transactions
      (run_ops sample_env
         [ CollectorCallback (callback "uuid-0" "SUCCESS");
           TransmitterCallback (callback "uuid-0" "FAILURE");
           Confirm "uuid-0" sample_confirmation ]
         world_completed) !! "uuid-0" = Some t' /\
    status t' = COMPLETED.
Proof.
  destruct (Transactions world_completed !! "uuid-0") as [t|] eqn:Ht;
    [|vm_compute in Ht; discriminate].
  assert (Hst : status t = COMPLETED)
    by (vm_compute in Ht; injection Ht as <-; reflexivity).
  destruct (status_never_reverts sample_env
              [ CollectorCallback (callback "uuid-0" "SUCCESS");
                TransmitterCallback (callback "uuid-0" "FAILURE");
                Confirm "uuid-0" sample_confirmation ]
              world_completed "uuid-0" t Ht)
    as (t' & Ht' & _ & Hterm).
  exists t'. split; [exact Ht'|].
  rewrite (Hterm (or_introl Hst)). exact Hst.
Defined.

(** ** Provider failures *)



(** C6. What the code does with a collector callback whose status is not
    SUCCESS, for a stored transaction: the update to FAILED is refused by
    the table and the [ClientError] leaves the handler.  The handler does
    not return false, the record keeps its status and has no failure
    reason set, and no TRANSACTION_FAILED event is appended; the converter
    gateway is not called. *)
Theorem collector_failure_not_recorded (E : Env) (w : World) (ev : dict)
    (tid : string) (t : Transaction) :
  dict_get ev "transaction_id" = VStr tid ->
  dict_get ev "status" <> VStr "SUCCESS" ->
  Transactions w !! tid = Some t ->
  exists w',
    process_upi_payment_confirmation E ev w
    = (Raise (ClientError undefined_attribute_name), w') /\
    Transactions w' = Transactions w /\
    TransactionEvents w' = TransactionEvents w /\
    provider_calls w' = provider_calls w.
Proof.
  intros Hkey _ Ht. exists (w_refused w).
  split; [|repeat split; reflexivity].
  exact (callback_stored_transaction E CollectorReport w ev tid t Hkey Ht).
Qed.

Lemma collector_failure_not_recorded_witness :
  exists t w',
    Transactions world_pending !! "uuid-0" = Some t /\
    process_upi_payment_confirmation sample_env
      (callback "uuid-0" "FAILURE") world_pending
    = (Raise (ClientError undefined_attribute_name), w') /\
    Transactions w' !! "uuid-0" = Some t /\
    status t = PAYMENT_PENDING /\
    failure_reason t = None /\
    count_events TRANSACTION_FAILED (TransactionEvents w') = 0%nat.
Proof.
  destruct (Transactions world_pending !! "uuid-0") as [t|] eqn:Ht;
    [|vm_compute in Ht; discriminate].
  destruct (collector_failure_not_recorded sample_env world_pending
              (callback "uuid-0" "FAILURE") "uuid-0" t eq_refl
              ltac:(discriminate) Ht) as (w' & Hrun & Htx & Hev & _).
  exists t, w'. split; [reflexivity|]. split; [exact Hrun|].
  split; [rewrite Htx; exact Ht|].
  split; [vm_compute in Ht; injection Ht as <-; reflexivity|].
  split; [vm_compute in Ht; injection Ht as <-; reflexivity|].
  rewrite Hev. vm_compute. reflexivity.
Defined.

(** ** Sorting *)

Lemma insert_by_perm {A} (le : A -> A -> bool) (x : A) (l : list A) :
  insert_by le x l ≡ₚ x :: l.
Proof.
  induction l as [|y l IH]; simpl; [reflexivity|].
  destruct (le x y); [reflexivity|].
  rewrite IH. apply Permutation_swap.
Qed.

Lemma sort_by_perm {A} (le : A -> A -> bool) (l : list A) : sort_by le l ≡ₚ l.
Proof.
  induction l as [|x l IH]; simpl; [reflexivity|].
  rewrite insert_by_perm, IH. reflexivity.
Qed.

Lemma insert_by_key_sorted {A} (key : A -> Z) (x : A) (l : list A) :
  Sorted (key_le key) l ->
  Sorted (key_le key) (insert_by (fun a b => key a <=? key b) x l).
Proof.
  induction 1 as [|y l Hl IH Hhd]; simpl.
  - repeat constructor.
  - destruct (Z.leb_spec (key x) (key y)) as [Hle|Hgt].
    + constructor; [constructor; assumption|]. constructor. exact Hle.
    + constructor; [exact IH|].
      destruct Hhd as [|z l Hyz]; simpl.
      * constructor. unfold key_le. lia.
      * destruct (key x <=? key z); constructor;
          unfold key_le in *; lia || assumption.
Qed.

Lemma sorted_by_sorted {A} (key : A -> Z) (l : list A) :
  Sorted (key_le key) (sorted_by key l).
Proof.
  unfold sorted_by.
  induction l as [|x l IH]; simpl; [constructor|].
  apply insert_by_key_sorted, IH.
Qed.

Lemma sorted_by_perm {A} (key : A -> Z) (l : list A) : sorted_by key l ≡ₚ l.
Proof. apply sort_by_perm. Qed.

(** A list whose keys strictly increase is the only sorted arrangement of
    its elements. *)
Lemma sorted_by_increasing {A} (key : A -> Z) (l0 l : list A) :
  StronglySorted (key_lt key) l0 -> l ≡ₚ l0 -> sorted_by key l = l0.
Proof.
  intros Hinc Hperm.
  assert (Htrans : Transitive (key_le key))
    by (intros a b c; unfold key_le; lia).
  assert (Hss : StronglySorted (key_le key) (sorted_by key l))
    by (apply (Sorted_StronglySorted (key_le key)), sorted_by_sorted).
  assert (Hss0 : StronglySorted (key_le key) l0).
  { clear -Hinc. induction Hinc as [|x l0 Hl0 IH Hx]; constructor;
      [exact IH|].
    eapply Forall_impl; [exact Hx|]. unfold key_lt, key_le. intros; lia. }
  assert (Hinj : forall a b, a ∈ l0 -> b ∈ l0 -> key a = key b -> a = b).
  { clear -Hinc. induction Hinc as [|x l0 Hl0 IH Hx]; intros a b Ha Hb Hk.
    - inversion Ha.
    - rewrite Forall_forall in Hx. unfold key_lt in Hx.
      apply elem_of_cons in Ha as [->|Ha];
        apply elem_of_cons in Hb as [->|Hb]; auto.
      + specialize (Hx b Hb). lia.
      + specialize (Hx a Ha). lia. }
  apply (StronglySorted_unique_strong (key_le key)); try assumption.
  - intros a b Ha Hb Hab Hba. apply Hinj.
    + rewrite <- Hperm, <- (sorted_by_perm key l). exact Ha.
    + exact Hb.
    + unfold key_le in *. lia.
  - rewrite sorted_by_perm. exact Hperm.
Qed.

(** ** Status queries *)

Lemma get_transaction_status_run (E : Env) (w : World) (tid : string)
    (t : Transaction) :
  Transactions w !! tid = Some t ->
  get_transaction_status E tid w
  = (Ok [ ("transaction_id", FStr (transaction_id t));
          ("status", FStr (status_value (status t)));
          ("last_updated", FDatetime (updated_at t));
          ("history",
            FHistory (map (history_entry E)
                        (sorted_by event_timestamp
                           (by_range_key (events_of tid w))))) ], w).
Proof.
  intros Ht. unfold get_transaction_status, get_by_id, bind.
  rewrite Ht. reflexivity.
Qed.




Lemma create_remittance_raise (E : Env) (w : World) (req : RemittanceRequest)
    (e : Exception) :
  adbank_get_exchange_rate E (length (provider_calls w)) "INR_CAD" = Raise e ->
  create_remittance E req w = (Raise e, w_call (GetExchangeRate "INR_CAD") w).
Proof.
  intros Hrate. unfold create_remittance, get_exchange_rate, gateway, bind.
  rewrite Hrate. reflexivity.
Qed.

(** ** The success path *)

(** C8. What the code does on the success path: when the rate query is
    answered the creation stores the transaction in INITIATED and logs
    TRANSACTION_CREATED; the confirmation that follows never returns,
    whatever the collector gateway answers (when it answers with a link,
    the status update that follows is refused by the table); the
    transaction is still in INITIATED and no event has been added for it,
    so its history ends with TRANSACTION_CREATED.  The path the claim
    speaks of is not taken beyond its first step. *)
Theorem success_path_stops_at_confirmation (E : Env) (w : World)
    (req : RemittanceRequest) (c : RemittanceConfirmation) (r : PyDecimal) :
  adbank_get_exchange_rate E (length (provider_calls w)) "INR_CAD" = Ok r ->
  exists resp w1 e w2 t,
    create_remittance E req w = (Ok resp, w1) /\
    confirm_remittance E (resp_transaction_id resp) c w1 = (Raise e, w2) /\
    Transactions w2 !! resp_transaction_id resp = Some t /\
    status t = INITIATED /\
    events_of (resp_transaction_id resp) w2
    = events_of (resp_transaction_id resp) w ++ [created_event E w req r] /\
    fst (get_transaction_status E (resp_transaction_id resp) w2)
    = fst (get_transaction_status E (resp_transaction_id resp) w1).
Proof.
  intros Hrate.
  rewrite (create_remittance_run E w req r Hrate).
  set (w1 := created_world E w req r).
  set (t := created_transaction E w req r).
  set (tid := uuid4 E (uuid_draws w)).
  assert (Ht : Transactions w1 !! tid = Some t)
    by (unfold w1, tid; simpl; apply lookup_insert_eq).
  pose proof (confirm_remittance_run E w1 tid c t _ Ht eq_refl eq_refl) as Hrun.
  assert (Hev1 : events_of tid w1 = events_of tid w ++ [created_event E w req r]).
  { unfold events_of, w1. simpl. rewrite filter_app.
    f_equal. rewrite filter_cons, filter_nil.
    destruct (decide _) as [_|Hne]; [reflexivity|].
    exfalso. apply Hne. reflexivity. }
  unfold confirm_outcome in Hrun.
  change (resp_transaction_id (response_of t)) with tid.
  destruct (upi_generate_payment_link E _ _ _ _) as [link|e];
    do 5 eexists; (split; [reflexivity|]); (split; [exact Hrun|]);
    (split; [exact Ht|]); (split; [reflexivity|]);
    (split; [exact Hev1|]);
    rewrite !(get_transaction_status_run E _ tid t) by exact Ht;
    reflexivity.
Qed.

Lemma success_path_stops_at_confirmation_witness :
  exists e w2 t d,
    confirm_remittance sample_env "uuid-0" sample_confirmation world_created
    = (Raise e, w2) /\
    Transactions w2 !! "uuid-0" = Some t /\
    status t = INITIATED /\
    map event_type (events_of "uuid-0" w2) = [TRANSACTION_CREATED] /\
    fst (get_transaction_status sample_env "uuid-0" w2) = Ok d /\
    status_dict_lookup "status" d = Some (FStr "INITIATED").
Proof.
  destruct (success_path_stops_at_confirmation sample_env empty_world
              sample_request sample_confirmation (mkDec false 17 (-3))
              eq_refl)
    as (resp & w1 & e & w2 & t & Hcreate & Hconfirm & Ht & Hst & Hev & Hq).
  assert (Hw1 : w1 = world_created)
    by (apply (f_equal snd) in Hcreate; symmetry; exact Hcreate).
  assert (Hid : resp_transaction_id resp = "uuid-0")
    by (apply (f_equal fst) in Hcreate; vm_compute in Hcreate;
        injection Hcreate as <-; reflexivity).
  rewrite Hid in *. subst w1.
  exists e, w2, t. eexists.
  split; [exact Hconfirm|]. split; [exact Ht|]. split; [exact Hst|].
  split; [rewrite Hev; reflexivity|].
  rewrite (get_transaction_status_run sample_env w2 "uuid-0" t Ht).
  split; [reflexivity|]. simpl. rewrite Hst. reflexivity.
Defined.

(** * Further properties of the service *)

(** ** The status update *)

(** X6. [update_status] never writes: for every id, stored or not, every
    status and every set of additional updates, it reads the clock once
    and raises the [ClientError] with which the table refuses its
    expression; the tables are as before. *)
Theorem update_status_never_writes (E : Env) (tid : string)
    (st : TransactionStatus) (us : list FieldUpdate) (w : World) :
  update_status E tid st us w
  = (Raise (ClientError undefined_attribute_name),
     set_clock_reads (S (clock_reads w)) w).
Proof. apply update_status_run. Qed.

(** ** Confirmation *)

(** X1. Confirming a stored transaction that is in INITIATED and has fees,
    when the collector gateway answers with a payment link: the collector
    is asked once, for [amount_inr + fees]; the status update that follows
    is refused by the table and the [ClientError] reaches the caller.  The
    transaction stays as it was, in INITIATED, no PAYMENT_INITIATED event
    is logged and no response is returned; the clock has been read once. *)
Theorem confirm_remittance_update_refused (E : Env) (w : World) (tid : string)
    (c : RemittanceConfirmation) (t : Transaction) (f : PyDecimal)
    (link : string) :
  Transactions w !! tid = Some t ->
  status t = INITIATED ->
  fees t = Some f ->
  upi_generate_payment_link E (length (provider_calls w)) tid
    (dec_add (amount_inr t) f) (upi_id c) = Ok link ->
  exists w',
    confirm_remittance E tid c w
    = (Raise (ClientError undefined_attribute_name), w') /\
    Transactions w' = Transactions w /\
    TransactionEvents w' = TransactionEvents w /\
    ExchangeRates w' = ExchangeRates w /\
    uuid_draws w' = uuid_draws w /\
    clock_reads w' = S (clock_reads w) /\
    provider_calls w'
    = provider_calls w
        ++ [GeneratePaymentLink tid (dec_add (amount_inr t) f) (upi_id c)].
Proof.
  intros Ht Hst Hf Hlink.
  rewrite (confirm_remittance_run E w tid c t f Ht Hst Hf).
  unfold confirm_outcome. rewrite Hlink.
  eexists. repeat split; reflexivity.
Qed.

Lemma confirm_remittance_update_refused_witness :
  exists w' t,
    confirm_remittance sample_env "uuid-0" sample_confirmation world_created
    = (Raise (ClientError undefined_attribute_name), w') /\
    Transactions w' !! "uuid-0" = Some t /\
    status t = INITIATED /\
    TransactionEvents w' = TransactionEvents world_created.
Proof.
  destruct (Transactions world_created !! "uuid-0") as [t|] eqn:Ht;
    [|vm_compute in Ht; discriminate].
  assert (Hst : status t = INITIATED)
    by (vm_compute in Ht; injection Ht as <-; reflexivity).
  assert (Hf : fees t = Some (mkDec false 50000 (-3)))
    by (vm_compute in Ht; injection Ht as <-; reflexivity).
  destruct (confirm_remittance_update_refused sample_env world_created
              "uuid-0" sample_confirmation t (mkDec false 50000 (-3))
              "upi://pay/uuid-0" Ht Hst Hf eq_refl)
    as (w' & Hrun & Htx & Hev & _).
  exists w', t. split; [exact Hrun|].
  split; [rewrite Htx; exact Ht|]. split; [exact Hst|exact Hev].
Defined.

(** X2. When the collector gateway throws while a transaction in INITIATED
    is being confirmed, the exception reaches the caller as it is; the
    transaction stays in INITIATED, no event is logged and nothing else is
    written: only the attempted call is on the gateway trace. *)
Theorem confirm_remittance_gateway_error (E : Env) (w : World) (tid : string)
    (c : RemittanceConfirmation) (t : Transaction) (f : PyDecimal)
    (e : Exception) :
  Transactions w !! tid = Some t ->
  status t = INITIATED ->
  fees t = Some f ->
  upi_generate_payment_link E (length (provider_calls w)) tid
    (dec_add (amount_inr t) f) (upi_id c) = Raise e ->
  exists w',
    confirm_remittance E tid c w = (Raise e, w') /\
    Transactions w' = Transactions w /\
    TransactionEvents w' = TransactionEvents w /\
    ExchangeRates w' = ExchangeRates w /\
    provider_calls w'
    = provider_calls w
        ++ [GeneratePaymentLink tid (dec_add (amount_inr t) f) (upi_id c)].
Proof.
  intros Ht Hst Hf Hlink.
  rewrite (confirm_remittance_run E w tid c t f Ht Hst Hf).
  unfold confirm_outcome. rewrite Hlink.
  eexists. repeat split; reflexivity.
Qed.

Lemma confirm_remittance_gateway_error_witness :
  exists w',
    confirm_remittance collector_down_env "uuid-0" sample_confirmation
      world_created
    = (Raise (GatewayError "UPI provider unavailable"), w') /\
    Transactions w' = Transactions world_created /\
    TransactionEvents w' = TransactionEvents world_created.
Proof.
  destruct (Transactions world_created !! "uuid-0") as [t|] eqn:Ht;
    [|vm_compute in Ht; discriminate].
  assert (Hst : status t = INITIATED)
    by (vm_compute in Ht; injection Ht as <-; reflexivity).
  assert (Hf : fees t = Some (mkDec false 50000 (-3)))
    by (vm_compute in Ht; injection Ht as <-; reflexivity).
  destruct (confirm_remittance_gateway_error collector_down_env world_created
              "uuid-0" sample_confirmation t (mkDec false 50000 (-3))
              (GatewayError "UPI provider unavailable") Ht Hst Hf eq_refl)
    as (w' & Hrun & Htx & Hev & _).
  exists w'. split; [exact Hrun|]. split; [exact Htx|exact Hev].
Defined.

(** ** Callbacks *)

(** X3. A callback that names a transaction which is not stored makes each
    of the three handlers return false and changes nothing: no record is
    created, no event is logged, no gateway is called, whatever status the
    callback reports. *)
Theorem callback_for_unknown_transaction (E : Env) (w : World) (ev : dict)
    (tid : string) :
  dict_get ev "transaction_id" = VStr tid ->
  Transactions w !! tid = None ->
  process_upi_payment_confirmation E ev w = (Ok false, w) /\
  process_adbank_conversion_callback E ev w = (Ok false, w) /\
  process_wise_transfer_callback E ev w = (Ok false, w).
Proof. apply callback_unknown_transaction. Qed.

Lemma callback_for_unknown_transaction_witness :
  process_upi_payment_confirmation sample_env (callback "nobody" "SUCCESS")
    world_pending = (Ok false, world_pending) /\
  process_adbank_conversion_callback sample_env (callback "nobody" "SUCCESS")
    world_pending = (Ok false, world_pending) /\
  process_wise_transfer_callback sample_env (callback "nobody" "FAILURE")
    world_pending = (Ok false, world_pending).
Proof.
  destruct (callback_for_unknown_transaction sample_env world_pending
              (callback "nobody" "SUCCESS") "nobody" eq_refl
              ltac:(vm_compute; reflexivity)) as (H1 & H2 & _).
  destruct (callback_for_unknown_transaction sample_env world_pending
              (callback "nobody" "FAILURE") "nobody" eq_refl
              ltac:(vm_compute; reflexivity)) as (_ & _ & H3).
  repeat split; assumption.
Defined.

(** X4. A callback for a stored transaction, to any of the three
    handlers and whatever status it reports: the handler's first step is a
    status update, which the table refuses, and the [ClientError] leaves
    the handler.  The handler returns neither true nor false; no record is
    changed, no event is logged, no gateway is called and no id is drawn;
    the clock has been read once. *)
Theorem callback_for_stored_transaction (E : Env) (cb : Callback) (w : World)
    (ev : dict) (tid : string) (t : Transaction) :
  dict_get ev "transaction_id" = VStr tid ->
  Transactions w !! tid = Some t ->
  exists w',
    handler E cb ev w = (Raise (ClientError undefined_attribute_name), w') /\
    Transactions w' = Transactions w /\
    TransactionEvents w' = TransactionEvents w /\
    ExchangeRates w' = ExchangeRates w /\
    provider_calls w' = provider_calls w /\
    uuid_draws w' = uuid_draws w /\
    clock_reads w' = S (clock_reads w).
Proof.
  intros Hkey Ht. exists (w_refused w).
  split; [exact (callback_stored_transaction E cb w ev tid t Hkey Ht)|].
  repeat split; reflexivity.
Qed.

Lemma callback_for_stored_transaction_witness :
  (exists w',
     handler sample_env TransmitterReport (callback "uuid-0" "SUCCESS")
       world_sent
     = (Raise (ClientError undefined_attribute_name), w') /\
     Transactions w' = Transactions world_sent /\
     TransactionEvents w' = TransactionEvents world_sent) /\
  (exists w',
     handler sample_env ConverterReport (callback "uuid-0" "FAILURE")
       world_converting
     = (Raise (ClientError undefined_attribute_name), w') /\
     Transactions w' = Transactions world_converting /\
     TransactionEvents w' = TransactionEvents world_converting).
Proof.
  split.
  - destruct (Transactions world_sent !! "uuid-0") as [t|] eqn:Ht;
      [|vm_compute in Ht; discriminate].
    destruct (callback_for_stored_transaction sample_env TransmitterReport
                world_sent (callback "uuid-0" "SUCCESS") "uuid-0" t
                eq_refl Ht) as (w' & Hrun & Htx & Hev & _).
    exists w'. split; [exact Hrun|]. split; [exact Htx|exact Hev].
  - destruct (Transactions world_converting !! "uuid-0") as [t|] eqn:Ht;
      [|vm_compute in Ht; discriminate].
    destruct (callback_for_stored_transaction sample_env ConverterReport
                world_converting (callback "uuid-0" "FAILURE") "uuid-0" t
                eq_refl Ht) as (w' & Hrun & Htx & Hev & _).
    exists w'. split; [exact Hrun|]. split; [exact Htx|exact Hev].
Defined.

(** ** Status queries *)

(** X8. [get_transaction_status] never writes: whatever it answers, the
    world is as before.  For an id that is not stored it raises the
    not-found error.  For a stored transaction, in any status, it answers
    with the id, the status name, the time of the last update and a
    history that holds exactly the logged events of that transaction (none
    of another one), each with its type, time and data, in ascending order
    of [event_timestamp]. *)
Theorem get_transaction_status_reads (E : Env) (w : World) (tid : string) :
  after (get_transaction_status E tid) w = w /\
  match Transactions w !! tid with
  | None =>
      fst (get_transaction_status E tid w)
      = Raise (ValueError ("Transaction " +:+ tid +:+ " not found"))
  | Some t =>
      exists evs,
        fst (get_transaction_status E tid w)
        = Ok [ ("transaction_id", FStr (transaction_id t));
               ("status", FStr (status_value (status t)));
               ("last_updated", FDatetime (updated_at t));
               ("history", FHistory (map (history_entry E) evs)) ] /\
        evs ≡ₚ events_of tid w /\
        Sorted timestamp_le evs /\
        Forall (fun e => ev_transaction_id e = tid) evs /\
        length evs = length (events_of tid w)
  end.
Proof.
  destruct (Transactions w !! tid) as [t|] eqn:Ht.
  - unfold after. rewrite (get_transaction_status_run E w tid t Ht).
    split; [reflexivity|].
    exists (sorted_by event_timestamp (by_range_key (events_of tid w))).
    assert (Hperm : sorted_by event_timestamp (by_range_key (events_of tid w))
                    ≡ₚ events_of tid w)
      by (rewrite sorted_by_perm; apply sort_by_perm).
    split; [reflexivity|]. split; [exact Hperm|].
    split; [apply sorted_by_sorted|]. split.
    + rewrite Hperm. unfold events_of. apply Forall_forall.
      intros e He. apply list_elem_of_filter in He. tauto.
    + apply Permutation_length, Hperm.
  - unfold after, get_transaction_status, get_by_id, bind. rewrite Ht.
    split; reflexivity.
Qed.

(** ** Invariants of the saga *)

(** X9. Confirmation and the three callback handlers, whatever their
    outcome, leave on the stored transaction the fields fixed at creation:
    its id, the sender, the source amount, the target amount, the locked
    exchange rate, the fees, the recipient and the creation time. *)
Theorem saga_keeps_frozen_fields (E : Env) (op : SagaOp) (w : World)
    (tid : string) (t : Transaction) :
  op_key op = VStr tid ->
  Transactions w !! tid = Some t ->
  exists t',
    Transactions (run_op E op w) !! tid = Some t' /\
    frozen_fields_kept t t'.
Proof.
  intros _ Ht. exists t.
  destruct (saga_quiet E op w) as (Htx & _).
  rewrite Htx. split; [exact Ht|]. repeat split; reflexivity.
Qed.

Lemma saga_keeps_frozen_fields_witness :
  exists t t',
    Transactions world_created !! "uuid-0" = Some t /\
    Transactions world_reopened !! "uuid-0" = Some t' /\
    amount_cad t' = amount_cad t /\ exchange_rate t' = exchange_rate t.
Proof.
  destruct (Transactions world_completed !! "uuid-0") as [t|] eqn:Ht;
    [|vm_compute in Ht; discriminate].
  destruct (saga_keeps_frozen_fields sample_env
              (CollectorCallback (callback "uuid-0" "SUCCESS"))
              world_completed "uuid-0" t eq_refl Ht)
    as (t' & Ht' & _ & _ & _ & Hcad & Hrate & _).
  destruct (Transactions world_created !! "uuid-0") as [t0|] eqn:Ht0;
    [|vm_compute in Ht0; discriminate].
  exists t0, t'. split; [reflexivity|].
  split; [unfold world_reopened; exact Ht'|].
  rewrite Hcad, Hrate.
  vm_compute in Ht. injection Ht as <-.
  vm_compute in Ht0. injection Ht0 as <-.
  split; reflexivity.
Defined.

Lemma quiet_extends (w w' : World) : quiet w w' -> extends w w'.
Proof.
  intros (Htx & Hev & _ & Hu & Hc & Hp). unfold extends.
  rewrite Htx, Hev, Hu.
  repeat split; try assumption; try lia; [|auto].
  exists []. rewrite app_nil_r. reflexivity.
Qed.

(** X10. No operation of the service removes what is stored or logged:
    after any call (creation, confirmation, a callback, a status query, an
    estimate), with any input and whatever the call returns or raises, the
    earlier event log is a prefix of the new one, so is the gateway trace,
    every transaction that was stored is still stored, and neither the
    clock nor the id generator has gone back. *)
Theorem service_only_appends (E : Env) (c : ServiceCall) (w : World) :
  extends w (run_call E c w).
Proof.
  pose proof (call_quiet E c w) as Hq.
  destruct c as [req | tid c | ev | ev | ev | tid | amount];
    try (apply quiet_extends; exact Hq).
  simpl. unfold after.
  destruct (adbank_get_exchange_rate E (length (provider_calls w)) "INR_CAD")
    as [r|e] eqn:Hrate.
  - rewrite (create_remittance_run E w req r Hrate).
    unfold extends. simpl. repeat split; try lia; eauto.
    intros k Hk. destruct (decide (uuid4 E (uuid_draws w) = k)) as [->|Hne].
    + rewrite lookup_insert_eq. eauto.
    + rewrite lookup_insert_ne by exact Hne. exact Hk.
  - rewrite (create_remittance_raise E w req e Hrate).
    apply quiet_extends, quiet_call.
Qed.

(** ** Creation and the rate observations *)

(** X11. When the converter gateway answers the rate query with [r],
    [create_remittance] asks it exactly once and stores exactly one rate
    observation, for the pair INR_CAD, with source AD_BANK, stamped before
    the transaction is built; the rate of the observation is the rate
    locked on the new transaction and returned to the caller.  The new
    transaction has empty payment details and no provider reference and no
    failure reason. *)
Theorem create_remittance_records_rate (E : Env) (w : World)
    (req : RemittanceRequest) (r : PyDecimal) :
  adbank_get_exchange_rate E (length (provider_calls w)) "INR_CAD" = Ok r ->
  exists resp w' t obs,
    create_remittance E req w = (Ok resp, w') /\
    ExchangeRates w' = ExchangeRates w ++ [obs] /\
    currency_pair obs = "INR_CAD" /\
    source obs = "AD_BANK" /\
    rate obs = r /\
    rate_timestamp obs = utcnow E (clock_reads w) /\
    Transactions w' !! resp_transaction_id resp = Some t /\
    exchange_rate t = Some (rate obs) /\
    resp_exchange_rate resp = Some (rate obs) /\
    created_at t = utcnow E (S (clock_reads w)) /\
    resp_created_at resp = created_at t /\
    recipient_details t = recipient_dict (recipient req) /\
    payment_details t = [] /\
    wise_transfer_id t = None /\
    ad_bank_reference t = None /\
    failure_reason t = None /\
    provider_calls w' = provider_calls w ++ [GetExchangeRate "INR_CAD"].
Proof.
  intros Hrate.
  rewrite (create_remittance_run E w req r Hrate).
  do 4 eexists. split; [reflexivity|]. simpl.
  rewrite lookup_insert_eq. repeat split; reflexivity.
Qed.

Lemma create_remittance_records_rate_witness :
  exists obs,
    ExchangeRates world_created = [obs] /\
    rate obs = mkDec false 17 (-3) /\
    currency_pair obs = "INR_CAD".
Proof.
  destruct (create_remittance_records_rate sample_env empty_world
              sample_request (mkDec false 17 (-3)) eq_refl)
    as (resp & w' & t & obs & Hrun & Hrates & Hpair & _ & Hrate & _).
  assert (Hw : w' = world_created)
    by (apply (f_equal snd) in Hrun; symmetry; exact Hrun).
  subst w'. exists obs. split; [exact Hrates|]. split; [exact Hrate|exact Hpair].
Defined.

(** X12. Rate observations are written by creation only, and never read:
    confirmation, the three callbacks, the status query and the estimate
    leave the stored observations exactly as they are, with any input and
    whatever they return; and the rate a creation or an estimate uses is
    the gateway's answer to the query it makes, whatever observations are
    stored. *)
Theorem only_creation_writes_rates (E : Env) (c : ServiceCall) (w : World) :
  match c with
  | CallCreate req =>
      forall rates,
        fst (create_remittance E req (set_ExchangeRates rates w))
        = fst (create_remittance E req w)
  | CallCalculate amount =>
      ExchangeRates (run_call E c w) = ExchangeRates w /\
      forall rates,
        fst (calculate_remittance E amount (set_ExchangeRates rates w))
        = fst (calculate_remittance E amount w)
  | _ => ExchangeRates (run_call E c w) = ExchangeRates w
  end.
Proof.
  pose proof (call_quiet E c w) as Hq.
  destruct c as [req | tid c | ev | ev | ev | tid | amount];
    try exact (proj1 (proj2 (proj2 Hq))).
  - intros rates.
    destruct (adbank_get_exchange_rate E (length (provider_calls w)) "INR_CAD")
      as [r|e] eqn:Hrate.
    + rewrite (create_remittance_run E w req r Hrate),
        (create_remittance_run E (set_ExchangeRates rates w) req r Hrate).
      reflexivity.
    + rewrite (create_remittance_raise E w req e Hrate),
        (create_remittance_raise E (set_ExchangeRates rates w) req e Hrate).
      reflexivity.
  - split; [exact (proj1 (proj2 (proj2 Hq)))|].
    intros rates. rewrite !calculate_remittance_run. reflexivity.
Qed.

(** X13. When the rate query throws, [create_remittance] passes the
    exception on and has persisted nothing: no transaction, no event, no
    rate observation; neither the clock nor the id generator has been
    used; only the attempted query is on the gateway trace. *)
Theorem create_remittance_rate_error (E : Env) (w : World)
    (req : RemittanceRequest) (e : Exception) :
  adbank_get_exchange_rate E (length (provider_calls w)) "INR_CAD" = Raise e ->
  exists w',
    create_remittance E req w = (Raise e, w') /\
    Transactions w' = Transactions w /\
    TransactionEvents w' = TransactionEvents w /\
    ExchangeRates w' = ExchangeRates w /\
    uuid_draws w' = uuid_draws w /\
    clock_reads w' = clock_reads w /\
    provider_calls w' = provider_calls w ++ [GetExchangeRate "INR_CAD"].
Proof.
  intros Hrate. rewrite (create_remittance_raise E w req e Hrate).
  eexists. repeat split; reflexivity.
Qed.

Lemma create_remittance_rate_error_witness :
  exists w',
    create_remittance no_quote_env sample_request world_completed
    = (Raise (GatewayError "AD Bank unavailable"), w') /\
    Transactions w' = Transactions world_completed /\
    TransactionEvents w' = TransactionEvents world_completed.
Proof.
  destruct (create_remittance_rate_error no_quote_env world_completed
              sample_request (GatewayError "AD Bank unavailable") eq_refl)
    as (w' & Hrun & Htx & Hev & _).
  exists w'. split; [exact Hrun|]. split; [exact Htx|exact Hev].
Defined.

(** X14. A creation stores the new transaction under the first id it
    draws and gives the second id to the TRANSACTION_CREATED event; every
    transaction stored under another id is left as it was; and when the id
    was not in use, the number of stored transactions grows by one. *)
Theorem create_remittance_adds_one (E : Env) (w : World)
    (req : RemittanceRequest) (r : PyDecimal) :
  adbank_get_exchange_rate E (length (provider_calls w)) "INR_CAD" = Ok r ->
  exists resp w' ev,
    create_remittance E req w = (Ok resp, w') /\
    resp_transaction_id resp = uuid4 E (uuid_draws w) /\
    TransactionEvents w' = TransactionEvents w ++ [ev] /\
    event_id ev = uuid4 E (S (uuid_draws w)) /\
    uuid_draws w' = S (S (uuid_draws w)) /\
    (forall k, k <> resp_transaction_id resp ->
       Transactions w' !! k = Transactions w !! k) /\
    (Transactions w !! resp_transaction_id resp = None ->
     size (Transactions w') = S (size (Transactions w))).
Proof.
  intros Hrate.
  rewrite (create_remittance_run E w req r Hrate).
  do 3 eexists. split; [reflexivity|]. simpl.
  split; [reflexivity|]. split; [reflexivity|]. split; [reflexivity|].
  split; [reflexivity|]. split.
  - intros k Hk. apply lookup_insert_ne. congruence.
  - intros Hfresh. apply map_size_insert_None. exact Hfresh.
Qed.

Lemma create_remittance_adds_one_witness :
  exists resp w',
    create_remittance sample_env sample_request world_completed
    = (Ok resp, w') /\
    resp_transaction_id resp = "uuid-9" /\
    Transactions w' !! "uuid-0" = Transactions world_completed !! "uuid-0".
Proof.
  destruct (create_remittance_adds_one sample_env world_completed
              sample_request (mkDec false 17 (-3)) eq_refl)
    as (resp & w' & ev & Hrun & Hid & _ & _ & _ & Hother & _).
  exists resp, w'. split; [exact Hrun|].
  assert (Hid' : resp_transaction_id resp = "uuid-9")
    by (rewrite Hid; vm_compute; reflexivity).
  split; [exact Hid'|].
  apply Hother. rewrite Hid'. discriminate.
Defined.

(** * Properties of the rate repository *)

Lemma max_by_in {A} (key : A -> Z) (best : A) (l : list A) :
  In (max_by key best l) (best :: l).
Proof.
  revert best. induction l as [|x l IH]; intros best; simpl; [auto|].
  destruct (IH (if key best <? key x then x else best)) as [H|H].
  - destruct (key best <? key x); rewrite <- H; auto.
  - auto.
Qed.

Lemma max_by_best_le {A} (key : A -> Z) (best : A) (l : list A) :
  key best <= key (max_by key best l).
Proof.
  revert best. induction l as [|y l IH]; intros best; simpl; [lia|].
  destruct (Z.ltb_spec (key best) (key y)) as [Hlt|Hge].
  - specialize (IH y). lia.
  - apply IH.
Qed.

Lemma max_by_ge {A} (key : A -> Z) (best : A) (l : list A) (x : A) :
  In x (best :: l) -> key x <= key (max_by key best l).
Proof.
  revert best. induction l as [|y l IH]; intros best Hx.
  - destruct Hx as [->|[]]. simpl. lia.
  - destruct Hx as [->|[->|Hx]].
    + apply max_by_best_le.
    + simpl. destruct (Z.ltb_spec (key best) (key x)) as [Hlt|Hge].
      * apply max_by_best_le.
      * pose proof (max_by_best_le key best l). lia.
    + simpl. apply IH. right. exact Hx.
Qed.

Lemma rates_by_range_key_perm (E : Env) (l : list ExchangeRate) :
  rates_by_range_key E l ≡ₚ l.
Proof. apply sort_by_perm. Qed.

Lemma get_latest_rate_bounds (E : Env) (pair : string) (w : World) :
  (rates_by_range_key E (rates_of pair w) = [] -> rates_of pair w = []) /\
  (forall x l, rates_by_range_key E (rates_of pair w) = x :: l ->
     In (max_by rate_timestamp x l) (ExchangeRates w) /\
     currency_pair (max_by rate_timestamp x l) = pair /\
     forall r', In r' (ExchangeRates w) -> currency_pair r' = pair ->
                rate_timestamp r' <= rate_timestamp (max_by rate_timestamp x l)).
Proof.
  pose proof (rates_by_range_key_perm E (rates_of pair w)) as Hperm.
  split.
  - intros Hres. rewrite Hres in Hperm. apply Permutation_nil.
    exact Hperm.
  - intros x l Hres. rewrite Hres in Hperm.
    assert (Hmem : forall r, In r (x :: l) <->
                     In r (ExchangeRates w) /\ currency_pair r = pair).
    { intros r0. rewrite <- !list_elem_of_In, Hperm.
      unfold rates_of. rewrite list_elem_of_filter. tauto. }
    destruct (proj1 (Hmem _) (max_by_in rate_timestamp x l)) as [Hin Hpair].
    split; [exact Hin|]. split; [exact Hpair|].
    intros r' Hr' Hp'. apply max_by_ge. apply Hmem. split; assumption.
Qed.

(** X15. [get_latest_rate] writes nothing.  It returns None exactly when
    no observation is stored for the pair; otherwise it returns a stored
    observation of that pair whose timestamp is not exceeded by that of any
    other stored observation of the pair. *)
Theorem get_latest_rate_is_latest (E : Env) (pair : string) (w : World) :
  snd (get_latest_rate E pair w) = w /\
  match fst (get_latest_rate E pair w) with
  | Ok None => rates_of pair w = []
  | Ok (Some r) =>
      In r (ExchangeRates w) /\
      currency_pair r = pair /\
      forall r', In r' (ExchangeRates w) -> currency_pair r' = pair ->
                 rate_timestamp r' <= rate_timestamp r
  | Raise _ => False
  end.
Proof.
  split; [reflexivity|].
  destruct (get_latest_rate_bounds E pair w) as [Hnone Hsome].
  unfold get_latest_rate. cbn [fst]. fold (rates_of pair w).
  destruct (rates_by_range_key E (rates_of pair w)) as [|x l] eqn:Hres.
  - apply Hnone. reflexivity.
  - apply Hsome. reflexivity.
Qed.

(** X16. After a creation, the latest stored rate for INR_CAD is the rate
    that creation locked, provided the clock reading taken for its
    observation is later than the timestamps of the INR_CAD observations
    stored before. *)
Theorem latest_rate_after_creation (E : Env) (w : World)
    (req : RemittanceRequest) (r : PyDecimal) :
  adbank_get_exchange_rate E (length (provider_calls w)) "INR_CAD" = Ok r ->
  (forall r', In r' (ExchangeRates w) -> currency_pair r' = "INR_CAD" ->
              rate_timestamp r' < utcnow E (clock_reads w)) ->
  exists resp w',
    create_remittance E req w = (Ok resp, w') /\
    resp_exchange_rate resp = Some r /\
    get_latest_rate E "INR_CAD" w'
    = (Ok (Some (mkExchangeRate "INR_CAD" (utcnow E (clock_reads w)) r
                   "AD_BANK")), w').
Proof.
  intros Hrate Hearlier.
  rewrite (create_remittance_run E w req r Hrate).
  do 2 eexists. split; [reflexivity|]. split; [reflexivity|].
  set (w' := created_world E w req r).
  set (obs := mkExchangeRate "INR_CAD" (utcnow E (clock_reads w)) r "AD_BANK").
  destruct (get_latest_rate_bounds E "INR_CAD" w') as [Hnone Hsome].
  unfold get_latest_rate.
  fold (rates_of "INR_CAD" w').
  assert (Hobs : In obs (ExchangeRates w'))
    by (unfold w'; simpl; apply in_or_app; right; left; reflexivity).
  destruct (rates_by_range_key E (rates_of "INR_CAD" w')) as [|x l] eqn:Hres.
  - exfalso.
    assert (Hin : obs ∈ rates_of "INR_CAD" w').
    { unfold rates_of. apply list_elem_of_filter. split; [reflexivity|].
      apply list_elem_of_In. exact Hobs. }
    rewrite <- (rates_by_range_key_perm E), Hres in Hin. inversion Hin.
  - f_equal. f_equal. f_equal.
    specialize (Hsome x l eq_refl).
    destruct Hsome as (Hin & Hpair & Hmax).
    set (m := max_by rate_timestamp x l) in *.
    assert (Hge : rate_timestamp obs <= rate_timestamp m)
      by (apply Hmax; [exact Hobs|reflexivity]).
    unfold w' in Hin. simpl in Hin. apply in_app_or in Hin.
    destruct Hin as [Hold|[Heq|[]]].
    + specialize (Hearlier m Hold Hpair). simpl in Hge. lia.
    + symmetry. exact Heq.
Qed.

Lemma latest_rate_after_creation_witness :
  exists resp w',
    create_remittance sample_env sample_request world_completed
    = (Ok resp, w') /\
    resp_exchange_rate resp = Some (mkDec false 17 (-3)) /\
    get_latest_rate sample_env "INR_CAD" w'
    = (Ok (Some (mkExchangeRate "INR_CAD"
                   (utcnow sample_env (clock_reads world_completed))
                   (mkDec false 17 (-3)) "AD_BANK")), w').
Proof.
  apply (latest_rate_after_creation sample_env world_completed
           sample_request (mkDec false 17 (-3)) eq_refl).
  intros r' Hin _. vm_compute in Hin.
  destruct Hin as [<-|[]]. vm_compute. reflexivity.
Defined.

(** * Invariants of the reachable worlds *)

Lemma create_keeps_references (E : Env) (w : World) (req : RemittanceRequest) :
  events_refer_to_transactions w ->
  events_refer_to_transactions (after (create_remittance E req) w).
Proof.
  intros Hw. unfold after.
  destruct (adbank_get_exchange_rate E (length (provider_calls w)) "INR_CAD")
    as [r|e] eqn:Hrate.
  - rewrite (create_remittance_run E w req r Hrate).
    unfold events_refer_to_transactions. simpl.
    apply Forall_app. split.
    + eapply Forall_impl; [exact Hw|]. simpl. intros e He.
      destruct (decide (uuid4 E (uuid_draws w) = ev_transaction_id e))
        as [->|Hne].
      * rewrite lookup_insert_eq. eauto.
      * rewrite lookup_insert_ne by exact Hne. exact He.
    + repeat constructor. simpl. rewrite lookup_insert_eq. eauto.
  - rewrite (create_remittance_raise E w req e Hrate). exact Hw.
Qed.

Lemma quiet_keeps_references (w w' : World) :
  quiet w w' ->
  events_refer_to_transactions w -> events_refer_to_transactions w'.
Proof.
  intros (Htx & Hev & _). unfold events_refer_to_transactions.
  rewrite Htx, Hev. auto.
Qed.

Lemma call_keeps_references (E : Env) (c : ServiceCall) (w : World) :
  events_refer_to_transactions w ->
  events_refer_to_transactions (run_call E c w).
Proof.
  intros Hw. pose proof (call_quiet E c w) as Hq.
  destruct c as [req | tid c | ev | ev | ev | tid | amount];
    try exact (quiet_keeps_references _ _ Hq Hw).
  apply create_keeps_references, Hw.
Qed.

(** X17. In every world the service can reach from empty tables, by any
    sequence of calls with any inputs and outcomes, each logged event
    belongs to a transaction that is stored: no event is ever logged for an
    id the transactions table does not hold. *)
Theorem reachable_events_have_transactions (E : Env) (w : World) :
  reachable E w ->
  Forall (fun e => is_Some (Transactions w !! ev_transaction_id e))
         (TransactionEvents w).
Proof.
  induction 1 as [|c w Hw IH].
  - constructor.
  - apply call_keeps_references, IH.
Qed.

Lemma reachable_sample : reachable sample_env world_two_created.
Proof.
  unfold world_two_created. repeat apply reach_call. apply reach_start.
Qed.

Lemma reachable_events_have_transactions_witness :
  Forall (fun e => is_Some (Transactions world_two_created
                              !! ev_transaction_id e))
         (TransactionEvents world_two_created).
Proof.
  exact (reachable_events_have_transactions sample_env world_two_created
           reachable_sample).
Defined.

Lemma stamps_increasing (E : Env) (evs : list TransactionEvent)
    (ks : list nat) :
  clock_increasing E ->
  map event_timestamp evs = map (utcnow E) ks ->
  StronglySorted lt ks ->
  StronglySorted (key_lt event_timestamp) evs.
Proof.
  intros Hclock Hmap Hks. revert evs Hmap.
  induction Hks as [|k ks Hks IH Hk]; intros [|e evs] Hmap;
    try discriminate; constructor.
  - apply IH. simpl in Hmap. injection Hmap as _ Hmap. exact Hmap.
  - simpl in Hmap. injection Hmap as He Hmap.
    rewrite Forall_forall. intros e' He'.
    unfold key_lt. rewrite He.
    assert (Hin : In (event_timestamp e') (map (utcnow E) ks)).
    { rewrite <- Hmap. apply in_map, list_elem_of_In, He'. }
    apply in_map_iff in Hin as (k' & <- & Hk').
    apply Hclock. rewrite Forall_forall in Hk.
    apply Hk, list_elem_of_In, Hk'.
Qed.

(** An event stamped with a reading that is not before the current one. *)
Lemma follows_append (E : Env) (w w' : World) (e : TransactionEvent)
    (k : nat) :
  log_follows_clock E w ->
  TransactionEvents w' = TransactionEvents w ++ [e] ->
  event_timestamp e = utcnow E k ->
  (clock_reads w <= k < clock_reads w')%nat ->
  log_follows_clock E w'.
Proof.
  intros (ks & Hts & Hks & Hb) Hev He Hk. exists (ks ++ [k]).
  rewrite Hev, !map_app, Hts. simpl. rewrite He.
  split; [reflexivity|]. split.
  - apply StronglySorted_app_2; [|exact Hks|repeat constructor].
    rewrite Forall_forall in Hb. intros k1 k2 Hk1 Hk2.
    apply list_elem_of_singleton in Hk2. subst k2.
    specialize (Hb k1 Hk1). lia.
  - apply Forall_app. split.
    + eapply Forall_impl; [exact Hb|]. simpl. intros; lia.
    + repeat constructor. lia.
Qed.

Lemma quiet_follows_clock (E : Env) (w w' : World) :
  quiet w w' -> log_follows_clock E w -> log_follows_clock E w'.
Proof.
  intros (_ & Hev & _ & _ & Hc & _) (ks & Hts & Hks & Hb).
  exists ks. rewrite Hev. split; [exact Hts|]. split; [exact Hks|].
  eapply Forall_impl; [exact Hb|]. simpl. intros; lia.
Qed.

Lemma call_follows_clock (E : Env) (c : ServiceCall) (w : World) :
  log_follows_clock E w -> log_follows_clock E (run_call E c w).
Proof.
  intros Hw. pose proof (call_quiet E c w) as Hq.
  destruct c as [req | tid c | ev | ev | ev | tid | amount];
    try exact (quiet_follows_clock E _ _ Hq Hw).
  simpl. unfold after.
  destruct (adbank_get_exchange_rate E (length (provider_calls w)) "INR_CAD")
    as [r|e] eqn:Hrate.
  - rewrite (create_remittance_run E w req r Hrate).
    apply (follows_append E w _ (created_event E w req r)
             (S (S (S (clock_reads w)))) Hw);
      [reflexivity|reflexivity|simpl; lia].
  - rewrite (create_remittance_raise E w req e Hrate). exact Hw.
Qed.

Lemma reachable_follows_clock (E : Env) (w : World) :
  reachable E w -> log_follows_clock E w.
Proof.
  induction 1 as [|c w Hw IH].
  - exists []. repeat split; constructor.
  - apply call_follows_clock, IH.
Qed.

Lemma sample_clock_increasing : clock_increasing sample_env.
Proof. intros i j Hij. simpl. lia. Qed.


Lemma StronglySorted_filter {A} (R : A -> A -> Prop) (P : A -> Prop)
    `{forall x, Decision (P x)} (l : list A) :
  StronglySorted R l -> StronglySorted R (filter P l).
Proof.
  induction 1 as [|x l Hl IH Hx]; [constructor|].
  rewrite filter_cons. destruct (decide (P x)); [|exact IH].
  constructor; [exact IH|].
  rewrite Forall_forall in *. intros y Hy.
  apply list_elem_of_filter in Hy. apply Hx. tauto.
Qed.

(** X18. With a clock whose successive readings increase, in every world
    the service can reach from empty tables the status query of any stored
    transaction, whatever happened to it (failures, repeated or late
    callbacks), lists its events in the very order in which they were
    logged, and the timestamps of the list strictly increase; the order in
    which the table returns the events plays no part. *)
Theorem reachable_history_in_log_order (E : Env) (w : World) (tid : string)
    (t : Transaction) :
  clock_increasing E ->
  reachable E w ->
  Transactions w !! tid = Some t ->
  get_transaction_status E tid w
  = (Ok [ ("transaction_id", FStr (transaction_id t));
          ("status", FStr (status_value (status t)));
          ("last_updated", FDatetime (updated_at t));
          ("history",
            FHistory (map (history_entry E) (events_of tid w))) ], w) /\
  StronglySorted (key_lt event_timestamp) (events_of tid w).
Proof.
  intros Hclock Hreach Ht.
  destruct (reachable_follows_clock E w Hreach) as (ks & Hts & Hks & _).
  assert (Hlog : StronglySorted (key_lt event_timestamp) (TransactionEvents w))
    by exact (stamps_increasing E _ ks Hclock Hts Hks).
  assert (Hof : StronglySorted (key_lt event_timestamp) (events_of tid w))
    by (unfold events_of; apply StronglySorted_filter; exact Hlog).
  split; [|exact Hof].
  rewrite (get_transaction_status_run E w tid t Ht).
  rewrite (sorted_by_increasing event_timestamp (events_of tid w)
             (by_range_key (events_of tid w)) Hof (sort_by_perm _ _)).
  reflexivity.
Qed.

Lemma reachable_history_in_log_order_witness :
  exists t,
    Transactions world_two_created !! "uuid-0" = Some t /\
    fst (get_transaction_status sample_env "uuid-0" world_two_created)
    = Ok [ ("transaction_id", FStr (transaction_id t));
           ("status", FStr (status_value (status t)));
           ("last_updated", FDatetime (updated_at t));
           ("history",
             FHistory (map (history_entry sample_env)
                         (events_of "uuid-0" world_two_created))) ].
Proof.
  destruct (Transactions world_two_created !! "uuid-0") as [t|] eqn:Ht;
    [|vm_compute in Ht; discriminate].
  exists t. split; [reflexivity|].
  rewrite (proj1 (reachable_history_in_log_order sample_env world_two_created
                    "uuid-0" t sample_clock_increasing reachable_sample Ht)).
  reflexivity.
Defined.

Lemma quiet_never_progressed (w w' : World) :
  quiet w w' -> never_progressed w -> never_progressed w'.
Proof.
  intros (Htx & Hev & _). unfold never_progressed. rewrite Htx, Hev. auto.
Qed.

Lemma call_never_progressed (E : Env) (c : ServiceCall) (w : World) :
  never_progressed w -> never_progressed (run_call E c w).
Proof.
  intros Hw. pose proof (call_quiet E c w) as Hq.
  destruct c as [req | tid c | ev | ev | ev | tid | amount];
    try exact (quiet_never_progressed _ _ Hq Hw).
  simpl. unfold after.
  destruct (adbank_get_exchange_rate E (length (provider_calls w)) "INR_CAD")
    as [r|e] eqn:Hrate.
  - rewrite (create_remittance_run E w req r Hrate).
    destruct Hw as [Htx Hev]. split; simpl.
    + intros k t Hk.
      destruct (decide (uuid4 E (uuid_draws w) = k)) as [Heq|Hne].
      * subst k. rewrite lookup_insert_eq in Hk. injection Hk as <-.
        repeat split; reflexivity.
      * rewrite lookup_insert_ne in Hk by exact Hne. exact (Htx k t Hk).
    + apply Forall_app. split; [exact Hev|]. repeat constructor.
  - rewrite (create_remittance_raise E w req e Hrate). exact Hw.
Qed.

(** X5. In every world the service can reach from empty tables, by any
    sequence of calls with any inputs and gateway answers, every stored
    transaction is as its creation left it: in INITIATED, with no payment
    details, no provider reference and no failure reason; and the event
    log holds TRANSACTION_CREATED events only.  No confirmation and no
    callback ever moves a transaction on. *)
Theorem reachable_never_progressed (E : Env) (w : World) :
  reachable E w -> never_progressed w.
Proof.
  induction 1 as [|c w Hw IH].
  - split; [|constructor]. intros k t Hk.
    unfold empty_world in Hk. simpl in Hk. rewrite lookup_empty in Hk.
    discriminate.
  - apply call_never_progressed, IH.
Qed.

Lemma reachable_never_progressed_witness :
  never_progressed world_two_created.
Proof.
  exact (reachable_never_progressed sample_env world_two_created
           reachable_sample).
Defined.

(** * Properties of the routes *)

Lemma guarded_run {A} (m : M A) (code : Z) (prefix : string) (w : World) :
  routes.guarded m code prefix w
  = (match fst (m w) with
     | Ok a => Respond a
     | Raise e => http_error code prefix e
     end, snd (m w)).
Proof.
  unfold routes.guarded. destruct (m w) as [[a|e] w']; simpl;
    [reflexivity|]. destruct e; reflexivity.
Qed.

(** X19. The confirm route answers both refusals of the service with
    status code 400 and the service's message as detail, the one for an id
    that is not stored included (it is not a 404), and leaves everything as
    it was. *)
Theorem confirm_route_refusals (E : Env) (w : World) (tid : string)
    (c : RemittanceConfirmation) :
  (Transactions w !! tid = None ->
   routes.confirm_remittance E tid c w
   = (HTTPException 400 ("Transaction " +:+ tid +:+ " not found"), w)) /\
  (forall t, Transactions w !! tid = Some t -> status t <> INITIATED ->
   routes.confirm_remittance E tid c w
   = (HTTPException 400
        ("Transaction " +:+ tid +:+ " is not in INITIATED state"), w)).
Proof.
  unfold routes.confirm_remittance. split.
  - intros Ht. rewrite guarded_run.
    rewrite (confirm_remittance_not_found E w tid c Ht). reflexivity.
  - intros t Ht Hst. rewrite guarded_run.
    rewrite (confirm_remittance_not_initiated E w tid c t Ht Hst).
    reflexivity.
Qed.

Lemma confirm_route_refusals_witness :
  routes.confirm_remittance sample_env "nobody" sample_confirmation
    world_created
  = (HTTPException 400 "Transaction nobody not found", world_created) /\
  routes.confirm_remittance sample_env "uuid-0" sample_confirmation
    world_pending
  = (HTTPException 400 "Transaction uuid-0 is not in INITIATED state",
     world_pending).
Proof.
  split.
  - apply (proj1 (confirm_route_refusals sample_env world_created "nobody"
                    sample_confirmation)).
    vm_compute. reflexivity.
  - destruct (Transactions world_pending !! "uuid-0") as [t|] eqn:Ht;
      [|vm_compute in Ht; discriminate].
    apply (proj2 (confirm_route_refusals sample_env world_pending "uuid-0"
                    sample_confirmation) t Ht).
    vm_compute in Ht. injection Ht as <-. discriminate.
Defined.

(** X20. The status route never writes and never answers 400 or 500: for
    an id that is not stored it raises 404 with the not-found message, and
    for a stored transaction it responds with the id, the stored status
    and the time of the last update. *)
Theorem status_route_answers (E : Env) (w : World) (tid : string) :
  snd (routes.get_remittance_status E tid w) = w /\
  match Transactions w !! tid with
  | None =>
      fst (routes.get_remittance_status E tid w)
      = HTTPException 404 ("Transaction " +:+ tid +:+ " not found")
  | Some t =>
      exists body,
        fst (routes.get_remittance_status E tid w) = Respond body /\
        status_dict_lookup "transaction_id" body
        = Some (FStr (transaction_id t)) /\
        status_dict_lookup "status" body
        = Some (FStr (status_value (status t))) /\
        status_dict_lookup "last_updated" body
        = Some (FDatetime (updated_at t))
  end.
Proof.
  unfold routes.get_remittance_status. rewrite guarded_run. cbn [fst snd].
  destruct (Transactions w !! tid) as [t|] eqn:Ht.
  - rewrite (get_transaction_status_run E w tid t Ht). cbn [fst snd].
    split; [reflexivity|]. eexists. split; [reflexivity|].
    repeat split; reflexivity.
  - unfold get_transaction_status, get_by_id, bind. rewrite Ht.
    split; reflexivity.
Qed.


(** * The stored ids *)

(** X22. Transactions are stored by creation only.  Confirmation, the
    three callbacks, the status query and the estimate leave the set of
    stored ids exactly as it is, with any input and whatever they return:
    a callback for an unknown id stores nothing.  A creation adds at most
    one id, the first one it draws. *)
Theorem only_creation_stores_transactions (E : Env) (c : ServiceCall)
    (w : World) :
  match c with
  | CallCreate req =>
      stored_ids w ⊆ stored_ids (run_call E c w) /\
      stored_ids (run_call E c w)
      ⊆ stored_ids w ∪ {[ uuid4 E (uuid_draws w) ]}
  | _ => stored_ids (run_call E c w) = stored_ids w
  end.
Proof.
  pose proof (call_quiet E c w) as Hq.
  destruct c as [req | tid c | ev | ev | ev | tid | amount];
    try (unfold stored_ids; rewrite (proj1 Hq); reflexivity).
  simpl. unfold after.
  destruct (adbank_get_exchange_rate E (length (provider_calls w)) "INR_CAD")
    as [r|e] eqn:Hrate.
  - rewrite (create_remittance_run E w req r Hrate).
    unfold stored_ids. simpl. rewrite dom_insert_L.
    split; [apply union_subseteq_r|].
    rewrite (comm_L union). reflexivity.
  - rewrite (create_remittance_raise E w req e Hrate).
    unfold stored_ids. simpl. split; [reflexivity|].
    apply union_subseteq_l.
Qed.
